(** * micropython-wifi-manger: the provisioning core of [wifi.py]

    A shallow embedding of the credential store, the connection state
    machine, the HTTP portal handler and the DNS responder of [wifi.py],
    and the properties of them that the specification states.

    Conventions of the embedding.
    - A MicroPython [str] is its UTF-8 octet sequence; it is modelled as
      [string] (a sequence of 8-bit characters).  [bytes] objects read from
      the network are [list byte].
    - A [dict] is an association list with unique keys, in iteration order;
      a new key is put last.  (MicroPython fixes no iteration order; the
      properties that speak of an order speak of the order in which
      [items()] gives the items, whatever it is.)
    - A call either returns, raises, or never returns: [outcome].
    - The coroutines are read as sequential code: [await] is a call, and
      the event loop's interleaving with other tasks is not modelled.
    - Console output ([print]) and [gc.collect] are left out. *)

From Stdlib Require Import ZArith NArith List Bool Arith Lia.
From Stdlib.Strings Require Import String Ascii Byte.
From Stdlib Require Import DecimalString.
Import ListNotations.
Open Scope string_scope.
Open Scope list_scope.

Notation "s +++ t" := (String.append s t) (at level 60, right associativity).

(** ** Outcomes of a call *)

Inductive exn : Type :=
| OSError | ValueError | IndexError | NameError | UnicodeError | EOFError.

Inductive outcome (A : Type) : Type :=
| Ok (a : A)          (* the call returns [a] *)
| Raise (e : exn)     (* the call raises [e] *)
| Hang.               (* the call never returns *)
Arguments Ok {A} a.
Arguments Raise {A} e.
Arguments Hang {A}.

(** ** The MicroPython built-ins the source calls *)

Module Py.

Definition LF : ascii := "010"%char.
Definition CR : ascii := "013"%char.

(** [unichar_isspace]: space, and the control characters 9 to 13. *)
Definition is_space (c : ascii) : bool :=
  let n := N_of_ascii c in
  (n =? 32)%N || ((9 <=? n)%N && (n <=? 13)%N).

Fixpoint lstrip (s : string) : string :=
  match s with
  | EmptyString => EmptyString
  | String c s' => if is_space c then lstrip s' else s
  end.

Fixpoint rstrip (s : string) : string :=
  match s with
  | EmptyString => EmptyString
  | String c s' =>
      match rstrip s' with
      | EmptyString => if is_space c then EmptyString else String c EmptyString
      | r => String c r
      end
  end.

(** [str.strip()] *)
Definition strip (s : string) : string := rstrip (lstrip s).

(** [str.split(sep)] for a separator of one character. *)
Fixpoint split (sep : ascii) (s : string) : list string :=
  match s with
  | EmptyString => [EmptyString]
  | String c s' =>
      if Ascii.eqb c sep then EmptyString :: split sep s'
      else match split sep s' with
           | p :: ps => String c p :: ps
           | [] => [String c EmptyString]
           end
  end.

(** [s.startswith(p)] with what follows the prefix. *)
Fixpoint drop_prefix (p s : string) : option string :=
  match p, s with
  | EmptyString, _ => Some s
  | String a p', String b s' => if Ascii.eqb a b then drop_prefix p' s' else None
  | String _ _, EmptyString => None
  end.

Definition startswith (s p : string) : bool :=
  match drop_prefix p s with Some _ => true | None => false end.

(** [s.split(sep, 1)]: [None] when [sep] does not occur (one part),
    otherwise the text before and after its first occurrence. *)
Fixpoint split1 (sep s : string) : option (string * string) :=
  match drop_prefix sep s with
  | Some rest => Some (EmptyString, rest)
  | None =>
      match s with
      | EmptyString => None
      | String c s' =>
          match split1 sep s' with
          | Some (a, b) => Some (String c a, b)
          | None => None
          end
      end
  end.

(** [c in s] for a character [c]. *)
Fixpoint contains (c : ascii) (s : string) : bool :=
  match s with
  | EmptyString => false
  | String a s' => Ascii.eqb a c || contains c s'
  end.

(** [s.count(c)] for a character [c]. *)
Fixpoint count (c : ascii) (s : string) : nat :=
  match s with
  | EmptyString => 0
  | String a s' => (if Ascii.eqb a c then 1 else 0) + count c s'
  end.

(** The first and the last character of [s] are whitespace. *)
Definition starts_space (s : string) : bool :=
  match s with
  | EmptyString => false
  | String c _ => is_space c
  end.

Fixpoint ends_space (s : string) : bool :=
  match s with
  | EmptyString => false
  | String c EmptyString => is_space c
  | String _ s' => ends_space s'
  end.

(** [str.lower()]: MicroPython lowers the ASCII letters only. *)
Definition lower_char (c : ascii) : ascii :=
  let n := N_of_ascii c in
  if (65 <=? n)%N && (n <=? 90)%N then ascii_of_N (n + 32) else c.

Fixpoint lower (s : string) : string :=
  match s with
  | EmptyString => EmptyString
  | String c s' => String (lower_char c) (lower s')
  end.

Definition digit_of (c : ascii) : option Z :=
  let n := N_of_ascii c in
  if (48 <=? n)%N && (n <=? 57)%N then Some (Z.of_N (n - 48)) else None.

Fixpoint digits (acc : Z) (s : string) : option Z :=
  match s with
  | EmptyString => Some acc
  | String c s' =>
      match digit_of c with
      | Some d => digits (10 * acc + d) s'
      | None => None
      end
  end.

(** [int(s)]: surrounding whitespace, an optional sign, decimal digits.
    [None] is [ValueError].  (Digit separators, which some interpreter
    versions accept, are read as [ValueError].) *)
Definition int (s : string) : option Z :=
  match strip s with
  | EmptyString => None
  | String c r =>
      if Ascii.eqb c "-" then
        match r with
        | EmptyString => None
        | _ => option_map Z.opp (digits 0 r)
        end
      else if Ascii.eqb c "+" then
        match r with
        | EmptyString => None
        | _ => digits 0 r
        end
      else digits 0 (String c r)
  end.

(** [f.readlines()]: the lines of a text, each with its line feed; a last
    line without one is a line too. *)
Fixpoint readlines (s : string) : list string :=
  match s with
  | EmptyString => []
  | String c s' =>
      if Ascii.eqb c LF then String c EmptyString :: readlines s'
      else match readlines s' with
           | l :: ls => String c l :: ls
           | [] => [String c EmptyString]
           end
  end.

(** A [dict] with [str] keys and values. *)
Definition dict : Type := list (string * string).

Fixpoint dict_get (k : string) (d : dict) : option string :=
  match d with
  | [] => None
  | (k', v) :: d' => if String.eqb k k' then Some v else dict_get k d'
  end.

(** [d[k] = v]: the value of a present key is replaced where it stands, a
    new key goes last. *)
Fixpoint dict_set (k v : string) (d : dict) : dict :=
  match d with
  | [] => [(k, v)]
  | (k', v') :: d' =>
      if String.eqb k k' then (k', v) :: d' else (k', v') :: dict_set k v d'
  end.

Definition keys (d : dict) : list string := map fst d.

(** [b[i:j]] on a [bytes] object: out-of-range bounds are clipped. *)
Definition slice (i j : nat) (b : list byte) : list byte :=
  firstn (j - i) (skipn i b).

Definition byte_val (b : byte) : Z := Z.of_N (Byte.to_N b).

(** [bytes.decode('utf-8')] is the interpreter's: the models of the code
    take it as a parameter, [None] standing for [UnicodeError].  This
    instance follows MicroPython's [utf8_check], which accepts an octet
    sequence when every lead octet is followed by the continuation octets
    it announces; it serves where a result is computed on an input. *)
Fixpoint utf8_check (need : N) (b : list byte) : bool :=
  match b with
  | [] => (need =? 0)%N
  | x :: b' =>
      let c := Byte.to_N x in
      if (need =? 0)%N then
        if (192 <=? c)%N then
          if (248 <=? c)%N then false
          else utf8_check (N.land (N.shiftr 229 (N.land (N.shiftr c 3) 6)) 3) b'
        else if (128 <=? c)%N then false
        else utf8_check 0 b'
      else if (N.land c 192 =? 128)%N then utf8_check (need - 1) b'
      else false
  end.

Definition utf8_decode (b : list byte) : option string :=
  if utf8_check 0 b then Some (string_of_list_byte b) else None.

End Py.

(** ** The credential store: [_read_profiles], [_write_profiles] *)

Module Store.

(** The backing file [wifi.dat]: its text, or [None] when [open] raises
    [OSError] (the file is absent or unreadable). *)
Definition file : Type := option string.

Definition SEP : ascii := ";"%char.

(** The body of the [for line in lines] loop of [_read_profiles]:
    [ssid, password = line.strip().split(';')] unpacks exactly two parts. *)
Fixpoint read_lines (lines : list string) (profiles : Py.dict) : outcome Py.dict :=
  match lines with
  | [] => Ok profiles
  | line :: rest =>
      match Py.split SEP (Py.strip line) with
      | [ssid; password] => read_lines rest (Py.dict_set ssid password profiles)
      | _ => Raise ValueError
      end
  end.

Definition _read_profiles (f : file) : outcome Py.dict :=
  match f with
  | None => Ok []
  | Some text => read_lines (Py.readlines text) []
  end.

(** [f.write(f'{ssid};{password}\n')] for one item. *)
Definition record_line (item : string * string) : string :=
  fst item +++ String SEP (snd item +++ String Py.LF EmptyString).

Fixpoint written (profiles : Py.dict) : string :=
  match profiles with
  | [] => EmptyString
  | item :: rest => record_line item +++ written rest
  end.

(** [_write_profiles]: the file is truncated and rewritten. *)
Definition _write_profiles (profiles : Py.dict) (f : file) : file :=
  Some (written profiles).

(** What the specification asks of a mapping that is to survive a write
    and a read: no name or secret holds the delimiter or a line feed. *)
Definition plain_text (s : string) : Prop :=
  Py.contains SEP s = false /\ Py.contains Py.LF s = false.

Definition plain (profiles : Py.dict) : Prop :=
  Forall (fun item => plain_text (fst item) /\ plain_text (snd item)) profiles.

(** What [line.strip()] asks besides: no name starts with whitespace and no
    secret ends with whitespace. *)
Definition trimmed (profiles : Py.dict) : Prop :=
  Forall (fun item => Py.starts_space (fst item) = false /\
                      Py.ends_space (snd item) = false) profiles.

End Store.


(** ** The DNS responder: [DNSQuery], [run_dns_server] *)

Module DNS.

Definition SERVER_IP : string := "10.0.0.1".

Record query : Type := { data : list byte; domain : string }.

(** [(data[2] >> 3) & 15]: the opcode bits. *)
Definition tipo_of (b : byte) : Z := Z.land (Z.shiftr (Py.byte_val b) 3) 15.

(** [bytes(map(int, ip.split('.')))]: every part is an [int] in
    [range(256)], or [ValueError] is raised. *)
Fixpoint to_bytes (parts : list string) : outcome (list byte) :=
  match parts with
  | [] => Ok []
  | p :: parts' =>
      match Py.int p with
      | None => Raise ValueError
      | Some z =>
          if (z <? 0)%Z then Raise ValueError
          else match Byte.of_N (Z.to_N z) with
               | None => Raise ValueError
               | Some b =>
                   match to_bytes parts' with
                   | Ok bs => Ok (b :: bs)
                   | other => other
                   end
               end
      end
  end.

Definition ip_octets (ip : string) : outcome (list byte) :=
  to_bytes (Py.split "." ip).

(** The dotted-quad text of four octets, as [SERVER_IP] is written. *)
Definition decimal (b : byte) : string :=
  NilEmpty.string_of_uint (N.to_uint (Byte.to_N b)).

Definition dotted (a b c d : byte) : string :=
  decimal a +++ String "." (decimal b +++ String "." (decimal c +++ String "." (decimal d))).

(** The answer that follows the echoed question: a pointer to the name at
    offset 12, type A, class IN, a TTL of 60 and a data length of 4. *)
Definition flags : list byte := [x81; x80].
Definition name_pointer : list byte := [xc0; x0c].
Definition answer_head : list byte := [x00; x01; x00; x01; x00; x00; x00; x3c; x00; x04].

(** [DNSQuery.response].  With an empty [domain] the body of the [if] is
    skipped and [return packet] reads a local that was never bound. *)
Definition response (q : query) (ip : string) : outcome (list byte) :=
  if String.eqb (domain q) EmptyString then Raise NameError
  else
    match ip_octets ip with
    | Ok octets =>
        Ok (Py.slice 0 2 (data q) ++ flags
            ++ Py.slice 4 6 (data q) ++ Py.slice 4 6 (data q) ++ [x00; x00; x00; x00]
            ++ skipn 12 (data q)
            ++ name_pointer
            ++ answer_head
            ++ octets)
    | Raise e => Raise e
    | Hang => Hang
    end.

Section Codec.

Variable decode : list byte -> option string.

(** The [while lon != 0] loop of [DNSQuery.__init__], entered with
    [lon = data[ini]].  Every turn moves [ini] forward, so [fuel] turns are
    enough when [fuel] is the length of [data] ([labels_return]). *)
Fixpoint labels (fuel : nat) (data : list byte) (ini : nat) (lon : byte)
    (domain : string) : outcome string :=
  if (Py.byte_val lon =? 0)%Z then Ok domain
  else
    match fuel with
    | O => Hang
    | S fuel' =>
        match decode (Py.slice (ini + 1) (ini + Z.to_nat (Py.byte_val lon) + 1) data) with
        | None => Raise UnicodeError
        | Some label =>
            let domain' := domain +++ (label +++ ".") in
            let ini' := ini + (Z.to_nat (Py.byte_val lon) + 1) in
            match nth_error data ini' with
            | None => Raise IndexError
            | Some lon' => labels fuel' data ini' lon' domain'
            end
        end
    end.

(** [DNSQuery.__init__] *)
Definition DNSQuery (data : list byte) : outcome query :=
  match nth_error data 2 with
  | None => Raise IndexError
  | Some b2 =>
      if (tipo_of b2 =? 0)%Z then
        match nth_error data 12 with
        | None => Raise IndexError
        | Some lon =>
            match labels (List.length data) data 12 lon EmptyString with
            | Ok d => Ok {| data := data; domain := d |}
            | Raise e => Raise e
            | Hang => Hang
            end
        end
      else Ok {| data := data; domain := EmptyString |}
  end.

(** What [recvfrom] gives one turn of the server loop: a datagram and its
    sender, or an [OSError] with its [errno]. *)
Definition address : Type := (string * nat)%type.

Inductive received : Type :=
| Datagram (data : list byte) (addr : address)
| Failed (errno : Z).

(** What one turn does: it sends a packet, sleeps (milliseconds), or ends
    in an [except] branch, which prints the error. *)
Inductive action : Type :=
| SendTo (packet : list byte) (addr : address)
| Sleep (ms : nat)
| Caught (e : exn).

Definition serve (r : received) : list action :=
  match r with
  | Datagram [] _ => []
  | Datagram data addr =>
      match DNSQuery data with
      | Ok dns_query =>
          match response dns_query SERVER_IP with
          | Ok packet => [SendTo packet addr]
          | Raise e => [Caught e]
          | Hang => []
          end
      | Raise e => [Caught e]
      | Hang => []
      end
  | Failed errno => if (errno =? 11)%Z then [Sleep 100] else [Caught OSError]
  end.

(** [run_dns_server] over the first turns of its endless loop. *)
Definition run_dns_server (rs : list received) : list action :=
  flat_map serve rs.

End Codec.

End DNS.

(** ** The world of a provisioning run *)

(** What the code does to the station interface, the scheduler, the
    connection's writer and the timer, in the order it does it. *)
Inductive event : Type :=
| EConnect (ssid password : string)   (* wlan_sta.connect(ssid, password) *)
| EIsConnected (joined : bool)        (* wlan_sta.isconnected() gave [joined] *)
| EIfconfig                           (* wlan_sta.ifconfig() *)
| ESleep (ms : nat)                   (* await asyncio.sleep(ms / 1000) *)
| EDisconnect                         (* wlan_sta.disconnect() *)
| EScan                               (* wlan_sta.scan() *)
| EWrite (text : string)              (* await writer.awrite(text) *)
| EClose                              (* await writer.aclose() *)
| ETimer (ms : nat).                  (* Timer(0).init: server.close() in [ms] *)

Record world : Type := {
  file : Store.file;            (* wifi.dat *)
  polls : nat -> bool;          (* what the n-th isconnected() of the run gives *)
  cursor : nat;                 (* the isconnected() calls made so far *)
  networks : list (list byte);  (* the names scan() finds *)
  input : list byte;            (* the octets of the connection not yet read *)
  eof : bool;                   (* the peer has closed behind them *)
  trace : list event            (* what was done so far, oldest first *)
}.

(** The world after [n] more polls and the events [evs]. *)
Definition after (w : world) (n : nat) (evs : list event) : world :=
  {| file := file w; polls := polls w; cursor := cursor w + n;
     networks := networks w; input := input w; eof := eof w;
     trace := trace w ++ evs |}.

Definition set_file (f : Store.file) (w : world) : world :=
  {| file := f; polls := polls w; cursor := cursor w;
     networks := networks w; input := input w; eof := eof w;
     trace := trace w |}.

Definition set_input (i : list byte) (w : world) : world :=
  {| file := file w; polls := polls w; cursor := cursor w;
     networks := networks w; input := i; eof := eof w;
     trace := trace w |}.

(** Code that runs in the world: it returns, raises or hangs, and leaves a
    world behind. *)
Definition M (A : Type) : Type := world -> outcome A * world.

Definition ret {A} (a : A) : M A := fun w => (Ok a, w).
Definition raise {A} (e : exn) : M A := fun w => (Raise e, w).
Definition hang {A} : M A := fun w => (Hang, w).

Definition bind {A B} (m : M A) (k : A -> M B) : M B :=
  fun w =>
    match m w with
    | (Ok a, w') => k a w'
    | (Raise e, w') => (Raise e, w')
    | (Hang, w') => (Hang, w')
    end.

(** [try: body  except Exception as e: handler] *)
Definition try_except {A} (body : M A) (handler : exn -> M A) : M A :=
  fun w =>
    match body w with
    | (Raise e, w') => handler e w'
    | other => other
    end.

Notation "x <- m ;; k" := (bind m (fun x => k))
  (at level 61, m at next level, right associativity).
Notation "m ;; k" := (bind m (fun _ => k))
  (at level 61, right associativity).

Definition emit (e : event) : M unit := fun w => (Ok tt, after w 0 [e]).

(** ** The connection state machine: [connect], [_wifi_connect] *)

Module Wifi.

Definition DEFAULT_SSID : string := "ESP32".
Definition DEFAULT_SSID_PASSWORD : string := "password".

(** The fields of a [WifiManager] that the code reads; the two interfaces
    [wlan_sta] and [wlan_ap] are the world's. *)
Record WifiManager : Type := { ssid : string; password : string }.

(** [self.wlan_sta.isconnected()] *)
Definition isconnected : M bool :=
  fun w => let joined := polls w (cursor w) in
           (Ok joined, after w 1 [EIsConnected joined]).

(** [for _ in range(turns)]: [true] when the loop was left by
    [return True], [false] when it ran to its end. *)
Fixpoint poll (turns : nat) : M bool :=
  match turns with
  | O => ret false
  | S turns' =>
      joined <- isconnected ;;
      if joined then emit EIfconfig ;; ret true
      else emit (ESleep 100) ;; poll turns'
  end.

Definition _wifi_connect (ssid password : string) : M bool :=
  emit (EConnect ssid password) ;;
  joined <- poll 100 ;;
  if joined then ret true
  else emit EDisconnect ;; ret false.

Definition _read_profiles : M Py.dict :=
  fun w => (Store._read_profiles (file w), w).

Definition _write_profiles (profiles : Py.dict) : M unit :=
  fun w => (Ok tt, set_file (Store._write_profiles profiles (file w)) w).

(** [for ssid, password in profiles.items()] of [connect], with the
    [return False] behind it. *)
Fixpoint try_profiles (items : list (string * string)) : M bool :=
  match items with
  | [] => ret false
  | (ssid, password) :: rest =>
      ok <- _wifi_connect ssid password ;;
      if ok then ret true else try_profiles rest
  end.

Definition connect (self : WifiManager) : M bool :=
  profiles <- _read_profiles ;;
  match profiles with
  | [] =>
      ok <- _wifi_connect (ssid self) (password self) ;;
      if ok then ret true else ret false
  | _ => try_profiles profiles
  end.

(** The calls of [wlan_sta.connect] among some events, in order. *)
Fixpoint attempts (evs : list event) : list (string * string) :=
  match evs with
  | [] => []
  | EConnect s p :: evs' => (s, p) :: attempts evs'
  | _ :: evs' => attempts evs'
  end.

(** [k] turns of the poll loop that found the station not joined. *)
Fixpoint waits (k : nat) : list event :=
  match k with
  | O => []
  | S k' => EIsConnected false :: ESleep 100 :: waits k'
  end.

(** The calls of [wlan_sta.isconnected] among some events. *)
Fixpoint poll_count (evs : list event) : nat :=
  match evs with
  | [] => 0
  | EIsConnected _ :: evs' => S (poll_count evs')
  | _ :: evs' => poll_count evs'
  end.

(** The attempts on [items], one after the other, all came back [False]. *)
Inductive all_fail : list (string * string) -> world -> world -> Prop :=
| all_fail_nil (w : world) : all_fail [] w w
| all_fail_cons (s p : string) (rest : list (string * string)) (w w1 w2 : world) :
    _wifi_connect s p w = (Ok false, w1) ->
    all_fail rest w1 w2 ->
    all_fail ((s, p) :: rest) w w2.

End Wifi.

(** ** The pattern search of [ure]

    A backtracking matcher for the patterns the source uses: literal
    characters, [.], a negated one-character set, the greedy star of one of
    these, and groups.  As in [ure] a group boundary saves the place in the
    subject; a place is the text that is still to be read.  [.] matches any
    character. *)

Module Re.

Inductive atom : Type :=
| Char (c : ascii)      (* the character [c] *)
| NotChar (c : ascii)   (* [[^c]] *)
| Any.                  (* [.] *)

Inductive node : Type :=
| One (a : atom)
| Star (a : atom)       (* [a*], greedy *)
| Save (slot : nat).    (* group [k] opens at slot [2k] and closes at [2k+1] *)

Definition regex : Type := list node.

Definition accepts (a : atom) (c : ascii) : bool :=
  match a with
  | Char x => Ascii.eqb c x
  | NotChar x => negb (Ascii.eqb c x)
  | Any => true
  end.

Definition saves : Type := list (nat * string).

(** The first way to match [r] at the head of [s], a longer star first. *)
Fixpoint run (r : regex) : string -> saves -> option saves :=
  match r with
  | [] => fun _ sv => Some sv
  | One a :: r' =>
      fun s sv =>
        match s with
        | String c s' => if accepts a c then run r' s' sv else None
        | EmptyString => None
        end
  | Star a :: r' =>
      fix star (s : string) (sv : saves) : option saves :=
        match s with
        | String c s' =>
            if accepts a c then
              match star s' sv with
              | Some m => Some m
              | None => run r' s sv
              end
            else run r' s sv
        | EmptyString => run r' s sv
        end
  | Save slot :: r' => fun s sv => run r' s ((slot, s) :: sv)
  end.

(** [ure.search]: the match at the leftmost place that has one. *)
Fixpoint search (r : regex) (s : string) : option saves :=
  match run r s [] with
  | Some m => Some m
  | None =>
      match s with
      | String _ s' => search r s'
      | EmptyString => None
      end
  end.

Fixpoint saved (slot : nat) (sv : saves) : option string :=
  match sv with
  | [] => None
  | (k, s) :: sv' => if Nat.eqb k slot then Some s else saved slot sv'
  end.

(** The first [n] characters of [s]. *)
Fixpoint take (n : nat) (s : string) : string :=
  match n, s with
  | S n', String c s' => String c (take n' s')
  | _, _ => EmptyString
  end.

(** [match.group(k)]: the text between the two places of group [k]. *)
Definition group (k : nat) (m : saves) : string :=
  match saved (2 * k) m, saved (2 * k + 1) m with
  | Some from, Some to => take (String.length from - String.length to) from
  | _, _ => EmptyString
  end.

Fixpoint literal (s : string) : regex :=
  match s with
  | EmptyString => []
  | String c s' => One (Char c) :: literal s'
  end.

(** The pattern of [handle_http_connection]: [id=], group 1 of characters
    other than [&], as many as there are, [&password=], group 2 of any
    characters, as many as there are. *)
Definition credentials : regex :=
  literal "id=" ++ [Save 2; Star (NotChar "&"); Save 3]
  ++ literal "&password=" ++ [Save 4; Star Any; Save 5].

End Re.

(** ** The HTTP portal handler: [handle_http_connection] *)

Module Http.

Definition CRLF : string := String Py.CR (String Py.LF EmptyString).

Definition missing_length : string :=
  "HTTP/1.0 400 Bad Request" +++ CRLF +++ CRLF +++ "Missing Content-Length".
Definition invalid_data : string :=
  "HTTP/1.0 400 Bad Request" +++ CRLF +++ CRLF +++ "Invalid data!".
Definition server_error : string :=
  "HTTP/1.0 500 Internal Server Error" +++ CRLF +++ CRLF +++ "Error processing request.".
Definition found : string :=
  "HTTP/1.0 302 Found" +++ CRLF +++ "Location: /success" +++ CRLF +++ CRLF.
Definition not_joined : string :=
  "HTTP/1.0 200 OK" +++ CRLF +++ CRLF
  +++ "Failed to connect to the network. Please try again.".
Definition ok_head : string := "HTTP/1.0 200 OK" +++ CRLF +++ CRLF.

(** The octets of a line up to its line feed, and what follows; [None]
    when there is no line feed. *)
Fixpoint take_line (b : list byte) : option (list byte * list byte) :=
  match b with
  | [] => None
  | x :: b' =>
      if Byte.eqb x x0a then Some ([x], b')
      else match take_line b' with
           | Some (l, r) => Some (x :: l, r)
           | None => None
           end
  end.

(** The stream reader.  The octets of [input] are all that the peer ever
    sends, and they are there when the handler reads; behind them the
    stream is at its end ([eof]) or stays silent, and a read that waits for
    more then waits for ever. *)

(** [await reader.readline()] *)
Definition readline : M (list byte) :=
  fun w =>
    match take_line (input w) with
    | Some (line, rest) => (Ok line, set_input rest w)
    | None => if eof w then (Ok (input w), set_input [] w) else (Hang, w)
    end.

(** [await reader.readexactly(n)] *)
Definition readexactly (n : nat) : M (list byte) :=
  fun w =>
    if Nat.leb n (List.length (input w))
    then (Ok (firstn n (input w)), set_input (skipn n (input w)) w)
    else if eof w then (Raise EOFError, set_input [] w) else (Hang, w).

(** [await reader.read(n)]: one read of at most [n] octets once the stream
    is readable; with a negative [n], all octets up to the end. *)
Definition read (n : Z) : M (list byte) :=
  fun w =>
    if (n <? 0)%Z then
      if eof w then (Ok (input w), set_input [] w) else (Hang, w)
    else
      match input w with
      | [] => if eof w then (Ok [], w) else (Hang, w)
      | _ => (Ok (firstn (Z.to_nat n) (input w)),
              set_input (skipn (Z.to_nat n) (input w)) w)
      end.

Fixpoint bytes_eqb (a b : list byte) : bool :=
  match a, b with
  | [], [] => true
  | x :: a', y :: b' => Byte.eqb x y && bytes_eqb a' b'
  | _, _ => false
  end.

Definition DQ : ascii := "034"%char.

(** [f'<option value="{ssid}">{ssid}</option>\n'] *)
Definition option_tag (ssid : string) : string :=
  "<option value=" +++ String DQ (ssid +++ String DQ (">" +++ ssid +++ "</option>"
  +++ String Py.LF EmptyString)).

Section Handler.

(** [bytes.decode], and the fixed text of the two pages: the success page,
    and the selection page around its [{wifi_options}]. *)
Variable decode : list byte -> option string.
Variable success_page : string.
Variable selection_page : string -> string.

Definition decoded (b : list byte) : M string :=
  match decode b with
  | Some s => ret s
  | None => raise UnicodeError
  end.

(** The [while True] loop that reads the headers.  A line of at least one
    octet is consumed at every turn, so [fuel] turns are enough when
    [fuel] exceeds the length of the input ([read_headers_fuel]).  At the
    end of the stream [readline] gives [b''] at every turn, nothing
    changes, and the loop does not end. *)
Fixpoint read_headers (fuel : nat) (headers : Py.dict) : M Py.dict :=
  match fuel with
  | O => hang
  | S fuel' =>
      line <- readline ;;
      if bytes_eqb line [x0d; x0a] then ret headers
      else
        match line with
        | [] => hang
        | _ =>
            text <- decoded line ;;
            let header := Py.strip text in
            if Py.contains ":" header then
              match Py.split1 ": " header with
              | Some (key, value) =>
                  read_headers fuel' (Py.dict_set (Py.lower key) value headers)
              | None => raise ValueError
              end
            else read_headers fuel' headers
        end
  end.

(** The request line and the headers. *)
Definition read_head : M (string * Py.dict) :=
  data <- readline ;;
  request_line <- decoded data ;;
  headers <- (fun w => read_headers (S (List.length (input w))) [] w) ;;
  ret (request_line, headers).

(** The body of the [try] of the [POST /configure] branch. *)
Definition configure (content_length : Z) : M unit :=
  readexactly 2 ;;
  post_data <- read content_length ;;
  post_str <- decoded post_data ;;
  match Re.search Re.credentials post_str with
  | Some m =>
      let ssid := Re.group 1 m in
      let password := Re.group 2 m in
      ok <- Wifi._wifi_connect ssid password ;;
      if ok then
        profiles <- Wifi._read_profiles ;;
        Wifi._write_profiles (Py.dict_set ssid password profiles) ;;
        emit (EWrite found)
      else emit (EWrite not_joined)
  | None => emit (EWrite invalid_data)
  end.

Fixpoint wifi_options (names : list (list byte)) : outcome string :=
  match names with
  | [] => Ok EmptyString
  | name :: rest =>
      match decode name with
      | None => Raise UnicodeError
      | Some ssid =>
          match wifi_options rest with
          | Ok options =>
              Ok (match ssid with
                  | EmptyString => options
                  | _ => option_tag ssid +++ options
                  end)
          | other => other
          end
      end
  end.

Definition _generate_wifi_selection_page : M string :=
  emit EScan ;;
  options <- (fun w => (wifi_options (networks w), w)) ;;
  ret (selection_page options).

(** The routes, once the head is read. *)
Definition route (request_line : string) (headers : Py.dict) : M unit :=
  if Py.startswith request_line "POST /configure" then
    match Py.dict_get "content-length" headers with
    | None => emit (EWrite missing_length) ;; emit EClose
    | Some value =>
        content_length <-
          match Py.int value with
          | Some n => ret n
          | None => raise ValueError
          end ;;
        try_except (configure content_length)
                   (fun _ => emit (EWrite server_error)) ;;
        emit EClose
    end
  else if Py.startswith request_line "GET /success" then
    emit (EWrite (ok_head +++ success_page)) ;;
    emit (ETimer 500) ;;
    emit EClose
  else
    page <- _generate_wifi_selection_page ;;
    emit (EWrite (ok_head +++ page)) ;;
    emit EClose.

Definition handle_http_connection : M unit :=
  head <- read_head ;;
  route (fst head) (snd head).

End Handler.

End Http.

(** ** Inputs on which the properties are exercised *)

Module Samples.

(** Two profiles, one with a space inside its secret and its name. *)
Definition two_profiles : Py.dict := [("Home", "pw 1"); ("Cafe Net", "")].

(** A store text whose second line holds two delimiters. *)
Definition broken_text : string :=
  String "a" (String ";" (String "b" (String Py.LF "c;d;e"))).

(** A standard query for [captive.example], type A, class IN. *)
Definition captive_example : list byte :=
  [xab; xcd; x01; x00; x00; x01; x00; x00; x00; x00; x00; x00]
  ++ [x07] ++ list_byte_of_string "captive"
  ++ [x07] ++ list_byte_of_string "example" ++ [x00]
  ++ [x00; x01; x00; x01].

Definition captive_query : DNS.query :=
  {| DNS.data := captive_example; DNS.domain := "captive.example." |}.

(** The head of a server status request: opcode 2. *)
Definition status_query : list byte := [xab; xcd; x10; x00; x00; x01].

(** A station that reports joined from its third poll on, and a store that
    holds one profile. *)
Definition slow_station (n : nat) : bool := Nat.leb 2 n.

Definition home_file : string :=
  String "H" (String "o" (String "m" (String "e" (String ";" (String "p"
    (String "w" (String "1" (String Py.LF EmptyString)))))))).

Definition home_world : world :=
  {| file := Some home_file; polls := slow_station; cursor := 0;
     networks := []; input := []; eof := true; trace := [] |}.

Definition default_manager : Wifi.WifiManager :=
  {| Wifi.ssid := Wifi.DEFAULT_SSID; Wifi.password := Wifi.DEFAULT_SSID_PASSWORD |}.

(** Stand-ins for the text of the two pages. *)
Definition success_text : string := "Connected!".
Definition selection_text (options : string) : string :=
  "<select>" +++ options +++ "</select>".

Definition octets (s : string) : list byte := list_byte_of_string s.

(** A [POST /configure] request with the given header lines and body. *)
Definition post_configure (headers : list string) (body : string) : list byte :=
  octets "POST /configure HTTP/1.1" ++ [x0d; x0a]
  ++ flat_map (fun h => octets h ++ [x0d; x0a]) headers
  ++ [x0d; x0a] ++ octets body.

(** A portal on which every attempt would succeed at once. *)
Definition portal (request : list byte) : world :=
  {| file := None; polls := fun _ => true; cursor := 0; networks := [];
     input := request; eof := true; trace := [] |}.

Definition request_line : string := "POST /configure HTTP/1.1" +++ Http.CRLF.

(** A store text with blanks around its fields, an empty secret and a name
    that comes twice. *)
Definition messy_text : string :=
  "  Home;pw 1  " +++ String Py.LF ("Cafe;" +++ String Py.LF "Home;pw2").

Definition messy_profiles : Py.dict := [("Home", "pw2"); ("Cafe", "")].

(** The request the portal's form sends for [MyNet] and [secret123]. *)
Definition form_request : list byte :=
  post_configure ["Host: 10.0.0.1"; "Content-Length: 29"]
    "ssid=MyNet&password=secret123".

(** A world with the given store and station in which that request waits. *)
Definition visit (f : Store.file) (station : nat -> bool) : world :=
  {| file := f; polls := station; cursor := 0; networks := [];
     input := form_request; eof := false; trace := [] |}.


(** The header and the labels of [captive_example], and a query for the
    root name. *)
Definition query_header : list byte :=
  [xab; xcd; x01; x00; x00; x01; x00; x00; x00; x00; x00; x00].

Definition captive_labels : list (byte * list byte) :=
  [(x07, list_byte_of_string "captive"); (x07, list_byte_of_string "example")].

Definition root_query : list byte := query_header ++ [x00; x00; x02; x00; x01].

Definition client : DNS.address := ("10.0.0.2", 53).

(** A request for some page, in a place where the scan finds the given
    names. *)
Definition page_request (path : string) : list byte :=
  octets ("GET " +++ path +++ " HTTP/1.1") ++ [x0d; x0a]
  ++ octets "Host: 10.0.0.1" ++ [x0d; x0a; x0d; x0a].

Definition browse (path : string) (names : list (list byte)) : world :=
  {| file := None; polls := fun _ => false; cursor := 0; networks := names;
     input := page_request path; eof := false; trace := [] |}.

Definition page_line (path : string) : string :=
  "GET " +++ path +++ " HTTP/1.1" +++ Http.CRLF.

End Samples.

(** ** Readings of a store text and of a trace *)

Module View.

(** The name and the secret of a well-formed line of the store. *)
Definition fields (line : string) : string * string :=
  match Py.split Store.SEP (Py.strip line) with
  | [ssid; password] => (ssid, password)
  | _ => (EmptyString, EmptyString)
  end.

(** The records of a store text, line by line. *)
Definition records (text : string) : list (string * string) :=
  map fields (Py.readlines text).

(** No field of the mapping holds a line feed. *)
Definition one_line (profiles : Py.dict) : Prop :=
  Forall (fun item => Py.contains Py.LF (fst item) = false /\
                      Py.contains Py.LF (snd item) = false) profiles.


(** The responses written among some events, and the number of closes. *)
Fixpoint responses (evs : list event) : list string :=
  match evs with
  | [] => []
  | EWrite text :: evs' => text :: responses evs'
  | _ :: evs' => responses evs'
  end.

Fixpoint closes (evs : list event) : nat :=
  match evs with
  | [] => 0
  | EClose :: evs' => S (closes evs')
  | _ :: evs' => closes evs'
  end.

(** The octets hold a CR that a LF follows. *)
Fixpoint has_crlf (b : list byte) : bool :=
  match b with
  | [] => false
  | x :: b' =>
      match b' with
      | y :: _ => (Byte.eqb x x0d && Byte.eqb y x0a) || has_crlf b'
      | [] => false
      end
  end.

(** The texts one after the other. *)
Fixpoint joined (texts : list string) : string :=
  match texts with
  | [] => EmptyString
  | t :: texts' => t +++ joined texts'
  end.


(** A name on the wire: each label behind its length octet. *)
Fixpoint wire_name (labels : list (byte * list byte)) : list byte :=
  match labels with
  | [] => []
  | (lon, label) :: labels' => lon :: label ++ wire_name labels'
  end.

Definition first_length (labels : list (byte * list byte)) : byte :=
  match labels with
  | [] => x00
  | (lon, _) :: _ => lon
  end.

(** A length octet that is not 0 and counts the octets of its label. *)
Definition measured (l : byte * list byte) : Prop :=
  Py.byte_val (fst l) <> 0%Z /\
  List.length (snd l) = Z.to_nat (Py.byte_val (fst l)).

(** The parsed domain: every label followed by a dot. *)
Fixpoint dotted_name (texts : list string) : string :=
  match texts with
  | [] => EmptyString
  | t :: texts' => t +++ "." +++ dotted_name texts'
  end.

(** The milliseconds slept among some events. *)
Fixpoint slept (evs : list event) : nat :=
  match evs with
  | [] => 0
  | ESleep ms :: evs' => ms + slept evs'
  | _ :: evs' => slept evs'
  end.


End View.
(** ** Facts about the built-ins *)

Section PyFacts.
Import Py.

Lemma append_nil_r (s : string) : s +++ EmptyString = s.
Proof. induction s; simpl; congruence. Qed.

Lemma append_assoc (a b c : string) : (a +++ b) +++ c = a +++ (b +++ c).
Proof. induction a; simpl; congruence. Qed.

Lemma count_append (c : ascii) (a b : string) :
  count c (a +++ b) = count c a + count c b.
Proof. induction a; simpl; lia. Qed.

Lemma contains_count (c : ascii) (s : string) :
  contains c s = false <-> count c s = 0.
Proof.
  induction s as [|a s IH]; simpl; [tauto|].
  destruct (Ascii.eqb a c); simpl; [split; [discriminate|lia]|exact IH].
Qed.

Lemma split_length (sep : ascii) (s : string) :
  List.length (split sep s) = S (count sep s).
Proof.
  induction s as [|a s IH]; simpl; [reflexivity|].
  destruct (Ascii.eqb a sep); simpl; [now rewrite IH|].
  destruct (split sep s); simpl in *; [discriminate|exact IH].
Qed.

Lemma split_absent (sep : ascii) (s : string) :
  contains sep s = false -> split sep s = [s].
Proof.
  induction s as [|a s IH]; simpl; [reflexivity|].
  destruct (Ascii.eqb a sep); simpl; [discriminate|].
  intros H. now rewrite IH.
Qed.

Lemma split_two (sep : ascii) (a b : string) :
  contains sep a = false -> contains sep b = false ->
  split sep (a +++ String sep b) = [a; b].
Proof.
  intros Ha Hb. induction a as [|c a IH]; simpl in *.
  - rewrite Ascii.eqb_refl. now rewrite split_absent.
  - destruct (Ascii.eqb c sep); simpl in *; [discriminate|].
    now rewrite IH.
Qed.

Lemma space_not_sep (sep a : ascii) :
  is_space sep = false -> is_space a = true -> Ascii.eqb a sep = false.
Proof.
  intros Hs Ha. apply Ascii.eqb_neq. intros ->. congruence.
Qed.

Lemma count_lstrip (sep : ascii) (s : string) :
  is_space sep = false -> count sep (lstrip s) = count sep s.
Proof.
  intros Hs. induction s as [|a s IH]; simpl; [reflexivity|].
  destruct (is_space a) eqn:Ha; simpl; [|reflexivity].
  now rewrite (space_not_sep _ _ Hs Ha).
Qed.

Lemma count_rstrip (sep : ascii) (s : string) :
  is_space sep = false -> count sep (rstrip s) = count sep s.
Proof.
  intros Hs. induction s as [|a s IH]; simpl; [reflexivity|].
  destruct (rstrip s) as [|b r] eqn:Hr.
  - simpl in IH. rewrite <- IH.
    destruct (is_space a) eqn:Ha; simpl; [|reflexivity].
    now rewrite (space_not_sep _ _ Hs Ha).
  - simpl in *. now rewrite IH.
Qed.

Lemma count_strip (sep : ascii) (s : string) :
  is_space sep = false -> count sep (strip s) = count sep s.
Proof.
  intros Hs. unfold strip. now rewrite count_rstrip, count_lstrip.
Qed.

Lemma lstrip_id (s : string) : starts_space s = false -> lstrip s = s.
Proof. destruct s as [|c s]; simpl; [reflexivity|]. now intros ->. Qed.

Lemma rstrip_id (s : string) : ends_space s = false -> rstrip s = s.
Proof.
  induction s as [|c s IH]; [reflexivity|].
  intros H. cbn [rstrip]. destruct s as [|d s].
  - simpl in *. now rewrite H.
  - rewrite IH by exact H. reflexivity.
Qed.

Lemma rstrip_snoc_space (s : string) (c : ascii) :
  is_space c = true -> rstrip (s +++ String c EmptyString) = rstrip s.
Proof.
  intros Hc. induction s as [|a s IH]; simpl.
  - now rewrite Hc.
  - now rewrite IH.
Qed.

Lemma ends_space_append (a b : string) :
  b <> EmptyString -> ends_space (a +++ b) = ends_space b.
Proof.
  intros Hb. induction a as [|c a IH]; [reflexivity|].
  cbn [append ends_space]. destruct (a +++ b) eqn:E.
  - destruct a, b; simpl in E; congruence.
  - exact IH.
Qed.

Lemma readlines_line (l rest : string) :
  contains LF l = false ->
  readlines (l +++ String LF rest) = (l +++ String LF EmptyString) :: readlines rest.
Proof.
  intros Hl. induction l as [|c l IH]; simpl in *.
  - reflexivity.
  - destruct (Ascii.eqb c LF); simpl in *; [discriminate|].
    now rewrite IH.
Qed.

Lemma dict_set_fresh (k v : string) (d : dict) :
  ~ In k (keys d) -> dict_set k v d = d ++ [(k, v)].
Proof.
  induction d as [|[k' v'] d IH]; simpl; [reflexivity|].
  intros H. destruct (String.eqb_spec k k') as [->|_]; [tauto|].
  rewrite IH; [reflexivity|tauto].
Qed.

End PyFacts.

(** ** The credential store *)

Section StoreFacts.
Import Py Store Samples.

Lemma contains_append (c : ascii) (a b : string) :
  contains c (a +++ b) = contains c a || contains c b.
Proof.
  induction a as [|x a IH]; simpl; [reflexivity|].
  now rewrite IH, orb_assoc.
Qed.

Lemma written_cons (s p : string) (rest : dict) :
  written ((s, p) :: rest) = (s +++ String SEP p) +++ String LF (written rest).
Proof.
  cbn [written]. unfold record_line. cbn [fst snd].
  rewrite !append_assoc. cbn [append]. now rewrite append_assoc.
Qed.

(** A well-formed record line is read back as its two fields. *)
Lemma record_fields (s p : string) :
  plain_text s -> plain_text p ->
  starts_space s = false -> ends_space p = false ->
  split SEP (strip ((s +++ String SEP p) +++ String LF EmptyString)) = [s; p].
Proof.
  intros [Hs _] [Hp _] Hss Hpe.
  unfold strip. rewrite lstrip_id.
  - rewrite rstrip_snoc_space by reflexivity.
    rewrite rstrip_id; [now apply split_two|].
    rewrite ends_space_append by discriminate.
    destruct p; [reflexivity|exact Hpe].
  - destruct s; [reflexivity|exact Hss].
Qed.

Lemma read_lines_written (M acc : dict) :
  NoDup (keys (acc ++ M)) -> plain M -> trimmed M ->
  read_lines (readlines (written M)) acc = Ok (acc ++ M).
Proof.
  revert acc. induction M as [|[s p] M IH]; intros acc Hnd Hpl Htr.
  - simpl. now rewrite app_nil_r.
  - inversion Hpl as [|? ? [Hps Hpp] Hpl']; subst.
    inversion Htr as [|? ? [Hss Hpe] Htr']; subst.
    simpl in Hps, Hpp, Hss, Hpe.
    rewrite written_cons, readlines_line.
    + cbn [read_lines]. rewrite record_fields by assumption.
      rewrite dict_set_fresh.
      * rewrite IH; [now rewrite <- app_assoc| |assumption|assumption].
        now rewrite <- app_assoc.
      * unfold keys in *. rewrite map_app in Hnd. simpl in Hnd.
        apply NoDup_remove_2 in Hnd. intros Hin. apply Hnd.
        apply in_or_app. now left.
    + destruct Hps as [_ Hs], Hpp as [_ Hp].
      rewrite contains_append. simpl. now rewrite Hs, Hp.
Qed.

(** C4, as the code has it.  For every mapping [M] with unique names in which
    no name or secret holds the delimiter [;] or a line feed, and in which
    besides no name starts with whitespace and no secret ends with whitespace
    (each line is read through [strip()]), reading what [_write_profiles]
    wrote yields [M], item for item; and an absent or unreadable file reads
    as the empty mapping. *)
Theorem write_read_roundtrip (M : dict) (f : file) :
  NoDup (keys M) -> plain M -> trimmed M ->
  _read_profiles (_write_profiles M f) = Ok M /\ _read_profiles None = Ok [].
Proof.
  intros Hnd Hpl Htr. split; [|reflexivity].
  unfold _write_profiles, _read_profiles.
  now rewrite read_lines_written.
Qed.

Lemma write_read_roundtrip_witness :
  NoDup (keys two_profiles) /\ plain two_profiles /\ trimmed two_profiles /\
  _read_profiles (_write_profiles two_profiles None) = Ok two_profiles.
Proof.
  assert (Hnd : NoDup (keys two_profiles)).
  { repeat constructor; simpl; intuition discriminate. }
  assert (Hpl : plain two_profiles) by repeat constructor.
  assert (Htr : trimmed two_profiles) by repeat constructor.
  split; [exact Hnd|]. split; [exact Hpl|]. split; [exact Htr|].
  exact (proj1 (write_read_roundtrip two_profiles None Hnd Hpl Htr)).
Defined.

(** C4 as stated fails: a name that starts with a space holds neither [;]
    nor a line feed, and is read back without the space. *)
Lemma roundtrip_loses_leading_space :
  exists M : dict,
    NoDup (keys M) /\ plain M /\
    _read_profiles (_write_profiles M None) = Ok [("a", "b")] /\
    [("a", "b")] <> M.
Proof.
  exists [(" a", "b")]. repeat split.
  - repeat constructor. simpl. tauto.
  - repeat constructor.
  - discriminate.
Qed.

Lemma read_lines_bad (lines : list string) (line : string) (acc : dict) :
  In line lines -> count SEP line <> 1 -> read_lines lines acc = Raise ValueError.
Proof.
  intros Hin Hbad. revert acc.
  induction lines as [|l lines IH]; intros acc; [destruct Hin|].
  cbn [read_lines].
  pose proof (split_length SEP (strip l)) as Hlen.
  rewrite count_strip in Hlen by reflexivity.
  destruct (split SEP (strip l)) as [|a [|b [|c t]]] eqn:E; try reflexivity.
  simpl in Hlen. injection Hlen as Hlen.
  destruct Hin as [->|Hin]; [congruence|].
  now apply IH.
Qed.

Lemma read_lines_good (lines : list string) (acc : dict) :
  Forall (fun l => count SEP l = 1) lines -> exists d, read_lines lines acc = Ok d.
Proof.
  intros H. revert acc. induction H as [|l lines Hl _ IH]; intros acc.
  - now exists acc.
  - cbn [read_lines].
    pose proof (split_length SEP (strip l)) as Hlen.
    rewrite count_strip, Hl in Hlen by reflexivity.
    destruct (split SEP (strip l)) as [|a [|b [|c t]]]; try discriminate.
    apply IH.
Qed.

(** C10.  When some line of the backing file holds no [;] or more than one,
    [_read_profiles] raises [ValueError] and returns no mapping; the file
    whose every line holds exactly one is read to a mapping; and only the
    file that cannot be opened is turned into the empty mapping. *)
Theorem read_profiles_partial (text : string) (line : string) :
  In line (readlines text) -> count SEP line <> 1 ->
  _read_profiles (Some text) = Raise ValueError /\
  _read_profiles None = Ok [] /\
  (forall text', Forall (fun l => count SEP l = 1) (readlines text') ->
                 exists d, _read_profiles (Some text') = Ok d).
Proof.
  intros Hin Hbad. split; [|split].
  - unfold _read_profiles. now apply read_lines_bad with line.
  - reflexivity.
  - intros text' H. now apply read_lines_good.
Qed.

Lemma read_profiles_partial_witness :
  In "c;d;e" (readlines broken_text) /\ count SEP "c;d;e" <> 1 /\
  _read_profiles (Some broken_text) = Raise ValueError.
Proof.
  assert (Hin : In "c;d;e" (readlines broken_text)) by (simpl; tauto).
  assert (Hbad : count SEP "c;d;e" <> 1) by (simpl; lia).
  split; [exact Hin|]. split; [exact Hbad|].
  exact (proj1 (read_profiles_partial broken_text "c;d;e" Hin Hbad)).
Defined.

End StoreFacts.

(** ** The DNS responder *)

Section DottedFacts.
Import Py DNS.

Lemma split_cons (sep : ascii) (a rest : string) :
  contains sep a = false ->
  split sep (a +++ String sep rest) = a :: split sep rest.
Proof.
  intros Ha. induction a as [|c a IH]; simpl in *.
  - now rewrite Ascii.eqb_refl.
  - destruct (Ascii.eqb c sep); simpl in *; [discriminate|].
    now rewrite IH.
Qed.

Lemma decimal_no_dot (b : byte) : contains "." (decimal b) = false.
Proof. destruct b; reflexivity. Qed.

Lemma to_bytes_decimal (b : byte) (rest : list string) :
  to_bytes (decimal b :: rest)
  = match to_bytes rest with Ok bs => Ok (b :: bs) | other => other end.
Proof. destruct b; reflexivity. Qed.

(** The octets of a dotted quad are the four octets it was written from. *)
Lemma ip_octets_dotted (a b c d : byte) :
  ip_octets (dotted a b c d) = Ok [a; b; c; d].
Proof.
  unfold ip_octets, dotted.
  rewrite !split_cons by apply decimal_no_dot.
  rewrite split_absent by apply decimal_no_dot.
  now rewrite !to_bytes_decimal.
Qed.

Lemma server_ip_dotted : SERVER_IP = dotted x0a x00 x00 x01.
Proof. reflexivity. Qed.

End DottedFacts.

Section DnsFacts.
Import Py DNS.

Variable decode : list byte -> option string.

Lemma nth_error_lt {A} (l : list A) (n : nat) (x : A) :
  nth_error l n = Some x -> n < List.length l.
Proof. intros H. apply nth_error_Some. congruence. Qed.

(** The label loop never runs out of turns: it returns or raises. *)
Lemma labels_return (fuel : nat) (data : list byte) :
  forall ini lon dom,
    nth_error data ini = Some lon -> List.length data <= ini + fuel ->
    labels decode fuel data ini lon dom <> Hang.
Proof.
  induction fuel as [|fuel IH]; intros ini lon dom Hnth Hlen; simpl.
  - apply nth_error_lt in Hnth. lia.
  - destruct (byte_val lon =? 0)%Z; [discriminate|].
    destruct (decode _); [|discriminate].
    destruct (nth_error data (ini + _)) as [lon'|] eqn:E; [|discriminate].
    apply IH; [exact E|lia].
Qed.

Lemma DNSQuery_returns (data : list byte) : DNSQuery decode data <> Hang.
Proof.
  unfold DNSQuery.
  destruct (nth_error data 2); [|discriminate].
  destruct (tipo_of _ =? 0)%Z; [|discriminate].
  destruct (nth_error data 12) as [lon|] eqn:E; [|discriminate].
  pose proof (labels_return (List.length data) data 12 lon EmptyString E) as H.
  destruct (labels _ _ _ _ _ _); try discriminate.
  exfalso. apply H; [lia|reflexivity].
Qed.

(** A parsed query keeps the datagram; a parsed domain means opcode 0 and a
    first label at offset 12. *)
Lemma DNSQuery_data (dgram : list byte) (q : query) :
  DNSQuery decode dgram = Ok q -> data q = dgram.
Proof.
  unfold DNSQuery.
  destruct (nth_error dgram 2); [|discriminate].
  destruct (tipo_of _ =? 0)%Z.
  - destruct (nth_error dgram 12); [|discriminate].
    destruct (labels _ _ _ _ _ _); try discriminate.
    now intros [= <-].
  - now intros [= <-].
Qed.

Lemma DNSQuery_domain (dgram : list byte) (q : query) :
  DNSQuery decode dgram = Ok q -> domain q <> EmptyString ->
  exists b2, nth_error dgram 2 = Some b2 /\ tipo_of b2 = 0%Z /\ 12 < List.length dgram.
Proof.
  unfold DNSQuery.
  destruct (nth_error dgram 2) as [b2|]; [|discriminate].
  destruct (tipo_of b2 =? 0)%Z eqn:Ht.
  - destruct (nth_error dgram 12) eqn:E; [|discriminate].
    intros _ _. exists b2. repeat split.
    + now apply Z.eqb_eq.
    + now apply nth_error_lt in E.
  - intros [= <-]. simpl. congruence.
Qed.

Lemma firstn_length_app {A} (l r : list A) : firstn (List.length l) (l ++ r) = l.
Proof. induction l; simpl; congruence. Qed.

Lemma skipn_length_app {A} (l r : list A) : skipn (List.length l) (l ++ r) = r.
Proof. induction l; simpl; congruence. Qed.

Lemma skipn_last {A} (x r : list A) :
  (exists l, x = l ++ r) -> skipn (List.length x - List.length r) x = r.
Proof.
  intros [l ->]. rewrite length_app.
  replace (List.length l + List.length r - List.length r) with (List.length l) by lia.
  apply skipn_length_app.
Qed.

(** C1.  For every datagram that [DNSQuery] parses to a non-empty domain
    (a standard query, opcode 0) and every address [o1.o2.o3.o4] written
    as a dotted quad, [response(ip)] returns a packet whose first two
    octets are octets 0-1 of the datagram, whose two count fields (octets
    4-5 and 6-7) are both octets 4-5 of the datagram, whose octets from
    offset 12 are the datagram from offset 12 onward, and whose last four
    octets are [o1 o2 o3 o4]. *)
Theorem response_echoes_query (dgram : list byte) (q : query)
    (o1 o2 o3 o4 : byte) :
  DNSQuery decode dgram = Ok q -> domain q <> EmptyString ->
  exists packet,
    response q (dotted o1 o2 o3 o4) = Ok packet /\
    List.length (firstn 2 dgram) = 2 /\ firstn 2 packet = firstn 2 dgram /\
    List.length (slice 4 6 dgram) = 2 /\
    slice 4 6 packet = slice 4 6 dgram /\ slice 6 8 packet = slice 4 6 dgram /\
    slice 12 (List.length dgram) packet = skipn 12 dgram /\
    skipn (List.length packet - 4) packet = [o1; o2; o3; o4].
Proof.
  intros Hq Hdom.
  destruct (DNSQuery_domain _ _ Hq Hdom) as (b2 & _ & _ & Hlen).
  apply DNSQuery_data in Hq.
  unfold response. rewrite ip_octets_dotted, Hq.
  destruct (String.eqb_spec (domain q) EmptyString) as [E|_]; [contradiction|].
  eexists. split; [reflexivity|].
  destruct dgram as [|d0 [|d1 [|d2 [|d3 [|d4 [|d5 [|d6 [|d7 [|d8 [|d9
    [|d10 [|d11 [|d12 rest]]]]]]]]]]]]]; simpl in Hlen; try lia.
  repeat split.
  - unfold slice. cbn [skipn firstn Nat.sub List.length app flags].
    f_equal. apply firstn_length_app.
  - apply (skipn_last _ [o1; o2; o3; o4]).
    eexists. rewrite !app_assoc. reflexivity.
Qed.

(** C7.  For every datagram whose opcode bits are not 0, the parsed domain
    is empty, [response] builds no packet (it raises at [return packet]),
    and the server turn that received the datagram sends nothing: it ends in
    the [except Exception] branch.  Whatever the server sends, over any run,
    is the packet built from a datagram with a non-empty parsed domain. *)
Theorem nonstandard_opcode_unanswered (dgram : list byte) (b2 : byte)
    (addr : address) :
  nth_error dgram 2 = Some b2 -> tipo_of b2 <> 0%Z ->
  (exists q, DNSQuery decode dgram = Ok q /\ domain q = EmptyString /\
             forall ip, response q ip = Raise NameError) /\
  run_dns_server decode [Datagram dgram addr] = [Caught NameError] /\
  (forall rs packet addr',
      In (SendTo packet addr') (run_dns_server decode rs) ->
      exists dgram' q', In (Datagram dgram' addr') rs /\
                        DNSQuery decode dgram' = Ok q' /\
                        domain q' <> EmptyString /\
                        response q' SERVER_IP = Ok packet).
Proof.
  intros Hb2 Hop.
  assert (Hq : DNSQuery decode dgram = Ok {| data := dgram; domain := EmptyString |}).
  { unfold DNSQuery. rewrite Hb2.
    destruct (Z.eqb_spec (tipo_of b2) 0); [contradiction|reflexivity]. }
  split; [|split].
  - eexists. split; [exact Hq|]. split; reflexivity.
  - unfold run_dns_server. cbn [flat_map serve]. rewrite Hq.
    destruct dgram; [discriminate|]. reflexivity.
  - intros rs packet addr' Hin. unfold run_dns_server in Hin.
    apply in_flat_map in Hin. destruct Hin as (r & Hr & Hsent).
    destruct r as [d a|errno].
    + cbn [serve] in Hsent.
      destruct d as [|x d]; [destruct Hsent|].
      destruct (DNSQuery decode (x :: d)) as [q'| |] eqn:Eq;
        try (simpl in Hsent; intuition discriminate).
      destruct (response q' SERVER_IP) as [p| |] eqn:Ep;
        try (simpl in Hsent; intuition discriminate).
      destruct Hsent as [[= <- <-]|[]].
      exists (x :: d), q'. repeat split; try assumption.
      intros Hd. unfold response in Ep. rewrite Hd in Ep. discriminate.
    + cbn [serve] in Hsent.
      destruct (errno =? 11)%Z; simpl in Hsent; intuition discriminate.
Qed.

End DnsFacts.

Section DottedQuad.
Import Py DNS Samples.

Lemma response_echoes_query_witness :
  DNSQuery utf8_decode captive_example = Ok captive_query /\
  domain captive_query <> EmptyString /\
  SERVER_IP = dotted x0a x00 x00 x01 /\
  exists packet,
    response captive_query SERVER_IP = Ok packet /\
    firstn 2 packet = [xab; xcd] /\
    slice 4 6 packet = [x00; x01] /\ slice 6 8 packet = [x00; x01] /\
    skipn (List.length packet - 4) packet = [x0a; x00; x00; x01].
Proof.
  assert (Hq : DNSQuery utf8_decode captive_example = Ok captive_query)
    by reflexivity.
  assert (Hdom : domain captive_query <> EmptyString) by discriminate.
  split; [exact Hq|]. split; [exact Hdom|]. split; [reflexivity|].
  destruct (response_echoes_query utf8_decode captive_example captive_query
              x0a x00 x00 x01 Hq Hdom)
    as (packet & Hr & _ & H2 & _ & H46 & H68 & _ & Hlast).
  exists packet. repeat split; assumption.
Defined.

Lemma nonstandard_opcode_unanswered_witness :
  nth_error status_query 2 = Some x10 /\ tipo_of x10 <> 0%Z /\
  run_dns_server utf8_decode [Datagram status_query ("10.0.0.2", 53)]
  = [Caught NameError].
Proof.
  assert (H2 : nth_error status_query 2 = Some x10) by reflexivity.
  assert (Hop : tipo_of x10 <> 0%Z) by discriminate.
  split; [exact H2|]. split; [exact Hop|].
  exact (proj1 (proj2 (nonstandard_opcode_unanswered utf8_decode status_query
                         x10 ("10.0.0.2", 53) H2 Hop))).
Defined.

End DottedQuad.

(** ** The connection state machine *)

Section WifiFacts.
Import Py Wifi.

Lemma after_after (w : world) (a b : nat) (e1 e2 : list event) :
  after (after w a e1) b e2 = after w (a + b) (e1 ++ e2).
Proof.
  unfold after; simpl. f_equal; [lia|now rewrite app_assoc].
Qed.

Lemma after_nothing (w : world) : after w 0 [] = w.
Proof.
  destruct w; unfold after; simpl. f_equal; [lia|apply app_nil_r].
Qed.

Lemma poll_joins (k : nat) :
  forall turns w,
    k < turns ->
    (forall j, j < k -> polls w (cursor w + j) = false) ->
    polls w (cursor w + k) = true ->
    poll turns w
    = (Ok true, after w (S k) (waits k ++ [EIsConnected true; EIfconfig])).
Proof.
  induction k as [|k IH]; intros turns w Hlt Hbefore Hat;
    (destruct turns as [|turns]; [lia|]).
  - rewrite Nat.add_0_r in Hat.
    cbn [poll]. unfold bind, isconnected, emit, ret. rewrite Hat.
    now rewrite after_after.
  - pose proof (Hbefore 0 ltac:(lia)) as H0. rewrite Nat.add_0_r in H0.
    cbn [poll]. unfold bind at 1. unfold isconnected. rewrite H0.
    unfold bind at 1. unfold emit at 1. rewrite after_after.
    rewrite (IH turns); [now rewrite after_after|lia| |].
    + intros j Hj. cbn [after polls cursor].
      replace (cursor w + (1 + 0) + j) with (cursor w + S j) by lia.
      apply Hbefore. lia.
    + cbn [after polls cursor].
      now replace (cursor w + (1 + 0) + k) with (cursor w + S k) by lia.
Qed.

Lemma poll_gives_up (turns : nat) :
  forall w,
    (forall j, j < turns -> polls w (cursor w + j) = false) ->
    poll turns w = (Ok false, after w turns (waits turns)).
Proof.
  induction turns as [|turns IH]; intros w Hall.
  - cbn [poll waits]. unfold ret. now rewrite after_nothing.
  - pose proof (Hall 0 ltac:(lia)) as H0. rewrite Nat.add_0_r in H0.
    cbn [poll]. unfold bind at 1. unfold isconnected. rewrite H0.
    unfold bind at 1. unfold emit at 1. rewrite after_after.
    rewrite IH; [now rewrite after_after|].
    intros j Hj. cbn [after polls cursor].
    replace (cursor w + (1 + 0) + j) with (cursor w + S j) by lia.
    apply Hall. lia.
Qed.

(** Among the first [n] polls from the cursor one is the first to report
    joined, or none does. *)
Lemma first_joined (p : nat -> bool) (c n : nat) :
  (exists k, k < n /\ (forall j, j < k -> p (c + j) = false) /\ p (c + k) = true)
  \/ (forall j, j < n -> p (c + j) = false).
Proof.
  induction n as [|n [(k & Hk & Hb & Ha)|Hnone]].
  - right. intros j Hj. lia.
  - left. exists k. repeat split; [lia|exact Hb|exact Ha].
  - destruct (p (c + n)) eqn:E.
    + left. exists n. repeat split; [lia|exact Hnone|exact E].
    + right. intros j Hj. destruct (Nat.eq_dec j n) as [->|]; [exact E|].
      apply Hnone. lia.
Qed.

Lemma wifi_connect_joined (s p : string) (w : world) (k : nat) :
  k < 100 ->
  (forall j, j < k -> polls w (cursor w + j) = false) ->
  polls w (cursor w + k) = true ->
  _wifi_connect s p w
  = (Ok true, after w (S k) (EConnect s p :: waits k ++ [EIsConnected true; EIfconfig])).
Proof.
  intros Hk Hb Ha. unfold _wifi_connect.
  unfold bind at 1. unfold emit at 1. unfold bind at 1.
  rewrite (poll_joins k); [unfold ret; now rewrite after_after|exact Hk| |].
  - intros j Hj. cbn [after polls cursor]. rewrite Nat.add_0_r. now apply Hb.
  - cbn [after polls cursor]. now rewrite Nat.add_0_r.
Qed.

Lemma wifi_connect_timed_out (s p : string) (w : world) :
  (forall j, j < 100 -> polls w (cursor w + j) = false) ->
  _wifi_connect s p w
  = (Ok false, after w 100 (EConnect s p :: waits 100 ++ [EDisconnect])).
Proof.
  intros Hall. unfold _wifi_connect.
  unfold bind at 1. unfold emit at 1. unfold bind at 1.
  rewrite poll_gives_up.
  - unfold bind, emit, ret. now rewrite !after_after.
  - intros j Hj. cbn [after polls cursor]. rewrite Nat.add_0_r. now apply Hall.
Qed.

Lemma wifi_connect_cases (s p : string) (w : world) :
  (exists k, k < 100 /\
     _wifi_connect s p w
     = (Ok true, after w (S k) (EConnect s p :: waits k ++ [EIsConnected true; EIfconfig])))
  \/ _wifi_connect s p w
     = (Ok false, after w 100 (EConnect s p :: waits 100 ++ [EDisconnect])).
Proof.
  destruct (first_joined (polls w) (cursor w) 100) as [(k & Hk & Hb & Ha)|Hnone].
  - left. exists k. split; [exact Hk|]. now apply wifi_connect_joined.
  - right. now apply wifi_connect_timed_out.
Qed.

Lemma waits_polls (k : nat) : poll_count (waits k) = k.
Proof. induction k; simpl; congruence. Qed.

Lemma poll_count_app (a b : list event) :
  poll_count (a ++ b) = poll_count a + poll_count b.
Proof.
  induction a as [|e a IH]; [reflexivity|].
  destruct e; simpl; rewrite ?IH; reflexivity.
Qed.

Lemma waits_sleep (k ms : nat) : In (ESleep ms) (waits k) -> ms = 100.
Proof.
  induction k as [|k IH]; simpl; [tauto|].
  intros [H|[H|H]]; [discriminate|congruence|auto].
Qed.

Lemma waits_no_disconnect (k : nat) : ~ In EDisconnect (waits k).
Proof.
  induction k as [|k IH]; simpl; [tauto|].
  intros [H|[H|H]]; [discriminate|discriminate|auto].
Qed.

Lemma waits_no_attempt (k : nat) : attempts (waits k) = [].
Proof. induction k; simpl; auto. Qed.

Lemma attempts_app (a b : list event) :
  attempts (a ++ b) = attempts a ++ attempts b.
Proof.
  induction a as [|e a IH]; [reflexivity|].
  destruct e; simpl; rewrite ?IH; reflexivity.
Qed.

(** C3.  Whatever the station reports, poll after poll, one attempt returns:
    - when poll [k] (counted from 0, [k < 100]) is the first to report
      joined, it returns [True] right after that poll, having slept 100 ms
      after each of the [k] polls before it, and it does not disconnect;
    - when none of 100 polls reports joined, it has polled 100 times, slept
      100 ms after each, then disconnects once, as its last act, and
      returns [False];
    - in every case it returns a boolean after at most 100 polls, every
      sleep is 100 ms, and a [False] comes with exactly one disconnect,
      issued last. *)
Theorem wifi_connect_bounded (s p : string) (w : world) :
  (forall k, k < 100 ->
     (forall j, j < k -> polls w (cursor w + j) = false) ->
     polls w (cursor w + k) = true ->
     _wifi_connect s p w
     = (Ok true,
        after w (S k) (EConnect s p :: waits k ++ [EIsConnected true; EIfconfig]))) /\
  ((forall j, j < 100 -> polls w (cursor w + j) = false) ->
     _wifi_connect s p w
     = (Ok false, after w 100 (EConnect s p :: waits 100 ++ [EDisconnect]))) /\
  (exists r n evs,
     _wifi_connect s p w = (Ok r, after w n evs) /\
     n <= 100 /\ poll_count evs = n /\
     (forall ms, In (ESleep ms) evs -> ms = 100) /\
     (r = true -> ~ In EDisconnect evs) /\
     (r = false -> exists evs', evs = evs' ++ [EDisconnect] /\ ~ In EDisconnect evs')).
Proof.
  split; [|split].
  - intros k. apply wifi_connect_joined.
  - apply wifi_connect_timed_out.
  - destruct (wifi_connect_cases s p w) as [(k & Hk & E)|E]; rewrite E.
    + exists true, (S k), (EConnect s p :: waits k ++ [EIsConnected true; EIfconfig]).
      split; [reflexivity|]. split; [lia|]. split; [|split; [|split]].
      * cbn [poll_count]. rewrite poll_count_app, waits_polls. simpl. lia.
      * intros ms [H|H]; [discriminate|]. apply in_app_or in H.
        destruct H as [H|[H|[H|[]]]]; try discriminate.
        now apply waits_sleep in H.
      * intros _ [H|H]; [discriminate|]. apply in_app_or in H.
        destruct H as [H|[H|[H|[]]]]; try discriminate.
        now apply waits_no_disconnect in H.
      * discriminate.
    + exists false, 100, (EConnect s p :: waits 100 ++ [EDisconnect]).
      split; [reflexivity|]. split; [lia|]. split; [|split; [|split]].
      * cbn [poll_count]. rewrite poll_count_app, waits_polls. reflexivity.
      * intros ms [H|H]; [discriminate|]. apply in_app_or in H.
        destruct H as [H|[H|[]]]; try discriminate.
        now apply waits_sleep in H.
      * discriminate.
      * intros _. exists (EConnect s p :: waits 100). split; [reflexivity|].
        intros [H|H]; [discriminate|]. now apply waits_no_disconnect in H.
Qed.

Lemma wifi_connect_attempt (s p : string) (w : world) :
  exists r w', _wifi_connect s p w = (Ok r, w') /\
               attempts (trace w') = attempts (trace w) ++ [(s, p)].
Proof.
  destruct (wifi_connect_cases s p w) as [(k & _ & E)|E]; rewrite E;
    eexists; eexists; (split; [reflexivity|]);
    cbn [after trace]; rewrite attempts_app; cbn [attempts];
    now rewrite attempts_app, waits_no_attempt.
Qed.

Lemma all_fail_attempts (items : list (string * string)) (w w' : world) :
  all_fail items w w' -> attempts (trace w') = attempts (trace w) ++ items.
Proof.
  induction 1 as [w|s p rest w w1 w2 H1 _ IH]; [now rewrite app_nil_r|].
  destruct (wifi_connect_attempt s p w) as (r & w1' & E & Ha).
  rewrite H1 in E. injection E as _ <-.
  now rewrite IH, Ha, <- app_assoc.
Qed.

Lemma try_profiles_run (items : list (string * string)) :
  forall w, exists r w',
    try_profiles items w = (Ok r, w') /\
    ((r = true /\
      exists before s p later wm,
        items = before ++ (s, p) :: later /\
        all_fail before w wm /\ _wifi_connect s p wm = (Ok true, w'))
     \/ (r = false /\ all_fail items w w')).
Proof.
  induction items as [|[s p] rest IH]; intros w.
  - exists false, w. split; [reflexivity|]. right. split; [reflexivity|constructor].
  - destruct (wifi_connect_attempt s p w) as (r & w1 & E & _).
    cbn [try_profiles]. unfold bind. rewrite E. destruct r.
    + exists true, w1. split; [reflexivity|]. left. split; [reflexivity|].
      exists [], s, p, rest, w. repeat split; [constructor|exact E].
    + destruct (IH w1) as (r & w' & Er & Hr). exists r, w'. split; [exact Er|].
      destruct Hr as [(-> & before & s' & p' & later & wm & Hi & Hf & Hc)|(-> & Hf)].
      * left. split; [reflexivity|].
        exists ((s, p) :: before), s', p', later, wm.
        repeat split; [now rewrite Hi| |exact Hc].
        now apply all_fail_cons with w1.
      * right. split; [reflexivity|]. now apply all_fail_cons with w1.
Qed.

(** C2.  Let the store read as the mapping [profiles].
    - When it is empty, [connect] is one attempt on the default profile
      (the constructor's name and secret), and returns what it returns.
    - When it is not, [connect] returns a boolean.  [True]: the stored
      profiles before some profile were attempted in iteration order and
      all failed, that profile was attempted and succeeded, and that
      attempt ends the call; no later profile is attempted.  [False]: all
      stored profiles were attempted in iteration order and failed.  In
      both cases the attempts made are those on stored profiles only. *)
Theorem connect_tries_in_order (self : WifiManager) (w : world) (profiles : dict) :
  Store._read_profiles (file w) = Ok profiles ->
  (profiles = [] ->
     connect self w = _wifi_connect (ssid self) (password self) w) /\
  (profiles <> [] ->
     exists r w',
       connect self w = (Ok r, w') /\
       ((r = true /\
         exists before s p later wm,
           profiles = before ++ (s, p) :: later /\
           all_fail before w wm /\
           _wifi_connect s p wm = (Ok true, w') /\
           attempts (trace w') = attempts (trace w) ++ before ++ [(s, p)])
        \/ (r = false /\ all_fail profiles w w' /\
            attempts (trace w') = attempts (trace w) ++ profiles))).
Proof.
  intros Hread. split.
  - intros ->. unfold connect, bind, Wifi._read_profiles. rewrite Hread.
    destruct (wifi_connect_attempt (ssid self) (password self) w) as (r & w' & E & _).
    rewrite E. now destruct r.
  - intros Hne.
    assert (E : connect self w = try_profiles profiles w).
    { unfold connect, bind, Wifi._read_profiles. rewrite Hread.
      destruct profiles; [contradiction|reflexivity]. }
    rewrite E.
    destruct (try_profiles_run profiles w) as (r & w' & Er & Hr).
    exists r, w'. split; [exact Er|].
    destruct Hr as [(-> & before & s & p & later & wm & Hi & Hf & Hc)|(-> & Hf)].
    + left. split; [reflexivity|].
      exists before, s, p, later, wm. repeat split; try assumption.
      destruct (wifi_connect_attempt s p wm) as (r & w1 & E1 & Ha).
      rewrite Hc in E1. injection E1 as _ <-.
      now rewrite Ha, (all_fail_attempts _ _ _ Hf), <- app_assoc.
    + right. split; [reflexivity|]. split; [exact Hf|].
      now apply all_fail_attempts.
Qed.

End WifiFacts.

Section WifiRuns.
Import Py Wifi Samples.

Lemma wifi_connect_bounded_witness :
  _wifi_connect "Home" "pw1" home_world
  = (Ok true,
     after home_world 3
       [EConnect "Home" "pw1"; EIsConnected false; ESleep 100;
        EIsConnected false; ESleep 100; EIsConnected true; EIfconfig]).
Proof.
  apply (proj1 (wifi_connect_bounded "Home" "pw1" home_world) 2).
  - lia.
  - intros [|[|j]] Hj; [reflexivity|reflexivity|lia].
  - reflexivity.
Defined.

Lemma connect_tries_in_order_witness :
  Store._read_profiles (file home_world) = Ok [("Home", "pw1")] /\
  exists r w',
    connect default_manager home_world = (Ok r, w') /\
    ((r = true /\
      exists before s p later wm,
        [("Home", "pw1")] = before ++ (s, p) :: later /\
        all_fail before home_world wm /\
        _wifi_connect s p wm = (Ok true, w') /\
        attempts (trace w') = attempts (trace home_world) ++ before ++ [(s, p)])
     \/ (r = false /\ all_fail [("Home", "pw1")] home_world w' /\
         attempts (trace w') = attempts (trace home_world) ++ [("Home", "pw1")])).
Proof.
  assert (Hread : Store._read_profiles (file home_world) = Ok [("Home", "pw1")])
    by reflexivity.
  split; [exact Hread|].
  apply (proj2 (connect_tries_in_order default_manager home_world
                  [("Home", "pw1")] Hread)).
  discriminate.
Defined.

(** On that world [connect] attempts the stored profile alone. *)
Example connect_home :
  let (r, w') := connect default_manager home_world in
  r = Ok true /\ attempts (trace w') = [("Home", "pw1")].
Proof. vm_compute. split; reflexivity. Qed.

End WifiRuns.

(** ** The pattern search *)

Section ReFacts.
Import Py Re.

Lemma length_append (a b : string) :
  String.length (a +++ b) = String.length a + String.length b.
Proof. induction a; simpl; congruence. Qed.

Lemma take_all (s : string) : take (String.length s) s = s.
Proof. induction s; simpl; congruence. Qed.

Lemma take_prefix (a b : string) :
  take (String.length (a +++ b) - String.length b) (a +++ b) = a.
Proof.
  rewrite length_append.
  replace (String.length a + String.length b - String.length b)
    with (String.length a) by lia.
  induction a; simpl; [now destruct b|congruence].
Qed.

Lemma run_literal (p : string) (r : regex) (s : string) (sv : saves) :
  run (literal p ++ r) (p +++ s) sv = run r s sv.
Proof.
  induction p as [|c p IH]; [reflexivity|].
  cbn [literal app append run accepts]. now rewrite Ascii.eqb_refl.
Qed.

(** A greedy star takes every character it accepts, when what follows
    them can be matched behind it. *)
Lemma run_star_greedy (a : atom) (r : regex) (x s : string) (sv m : saves) :
  (forall c, contains c x = true -> accepts a c = true) ->
  run (Star a :: r) s sv = Some m ->
  run (Star a :: r) (x +++ s) sv = Some m.
Proof.
  intros Hx Hs. induction x as [|c x IH]; [exact Hs|].
  cbn [append]. change (run (Star a :: r) (String c (x +++ s)) sv)
    with (if accepts a c
          then match run (Star a :: r) (x +++ s) sv with
               | Some m' => Some m'
               | None => run r (String c (x +++ s)) sv
               end
          else run r (String c (x +++ s)) sv).
  rewrite Hx by (simpl; now rewrite Ascii.eqb_refl).
  rewrite IH; [reflexivity|].
  intros d Hd. apply Hx. simpl. rewrite Hd. apply orb_true_r.
Qed.

Lemma accepts_not (sep : ascii) (x : string) :
  contains sep x = false ->
  forall c, contains c x = true -> accepts (NotChar sep) c = true.
Proof.
  intros Hx c Hc. simpl. destruct (Ascii.eqb_spec c sep) as [->|]; [congruence|reflexivity].
Qed.

Lemma run_save (k : nat) (r : regex) (s : string) (sv : saves) :
  run (Save k :: r) s sv = run r s ((k, s) :: sv).
Proof. reflexivity. Qed.

Lemma run_star_stop (a : atom) (r : regex) (c : ascii) (s : string) (sv : saves) :
  accepts a c = false ->
  run (Star a :: r) (String c s) sv = run r (String c s) sv.
Proof. intros H. simpl. now rewrite H. Qed.

Lemma run_star_end (a : atom) (r : regex) (sv : saves) :
  run (Star a :: r) EmptyString sv = run r EmptyString sv.
Proof. reflexivity. Qed.

(** The pattern on [id=X&password=Y]. *)
Lemma run_credentials (x y : string) :
  contains "&" x = false ->
  run credentials ("id=" +++ x +++ "&password=" +++ y) []
  = Some [(5, EmptyString); (4, y); (3, "&password=" +++ y);
          (2, x +++ "&password=" +++ y)].
Proof.
  intros Hx. unfold credentials.
  rewrite run_literal. cbn [app]. rewrite run_save.
  apply run_star_greedy; [now apply accepts_not|].
  change ("&password=" +++ y) with (String "&" ("password=" +++ y)).
  rewrite run_star_stop by reflexivity. rewrite run_save.
  change (String "&" ("password=" +++ y)) with ("&password=" +++ y).
  rewrite run_literal. rewrite run_save.
  rewrite <- (append_nil_r y) at 1.
  apply run_star_greedy; [reflexivity|].
  rewrite run_star_end, run_save. reflexivity.
Qed.

Lemma credentials_groups (x y : string) :
  let m := [(5, EmptyString); (4, y); (3, "&password=" +++ y);
            (2, x +++ "&password=" +++ y)] in
  group 1 m = x /\ group 2 m = y.
Proof.
  split.
  - unfold group. cbn [saved Nat.mul Nat.add Nat.eqb].
    apply take_prefix.
  - unfold group. cbn [saved Nat.mul Nat.add Nat.eqb].
    cbn [String.length]. rewrite Nat.sub_0_r. apply take_all.
Qed.

Lemma search_hit (r : regex) (s : string) (m : saves) :
  run r s [] = Some m -> search r s = Some m.
Proof. intros H. destruct s; simpl; now rewrite H. Qed.

Lemma search_skip (r : regex) (c : ascii) (s : string) :
  run r (String c s) [] = None -> search r (String c s) = search r s.
Proof. intros H. cbn [search]. now rewrite H. Qed.

(** C9.  For every body [ssid=X&password=Y] in which [X] holds no [&], the
    search for the pattern succeeds and its groups are exactly [X] and [Y];
    so it does on [id=X&password=Y], the body without its first two
    octets. *)
Theorem form_body_matches (x y : string) :
  contains "&" x = false ->
  (exists m, search credentials ("ssid=" +++ x +++ "&password=" +++ y) = Some m /\
             group 1 m = x /\ group 2 m = y) /\
  (exists m, search credentials ("id=" +++ x +++ "&password=" +++ y) = Some m /\
             group 1 m = x /\ group 2 m = y).
Proof.
  intros Hx.
  pose proof (search_hit _ _ _ (run_credentials x y Hx)) as Hid.
  pose proof (credentials_groups x y) as Hg. cbv zeta in Hg.
  split; eexists; (split; [|exact Hg]); [|exact Hid].
  change ("ssid=" +++ x +++ "&password=" +++ y)
    with (String "s" (String "s" ("id=" +++ x +++ "&password=" +++ y))).
  rewrite !search_skip by reflexivity. exact Hid.
Qed.

Lemma form_body_matches_witness :
  contains "&" "MyNet" = false /\
  exists m, search credentials "ssid=MyNet&password=secret123" = Some m /\
            group 1 m = "MyNet" /\ group 2 m = "secret123".
Proof.
  assert (H : contains "&" "MyNet" = false) by reflexivity.
  split; [exact H|].
  exact (proj1 (form_body_matches "MyNet" "secret123" H)).
Defined.

End ReFacts.

(** ** The HTTP portal handler *)

Section HttpFacts.
Import Py Wifi Http.

Variable decode : list byte -> option string.
Variable success_page : string.
Variable selection_page : string -> string.

Lemma take_line_split (b l r : list byte) :
  take_line b = Some (l, r) -> b = l ++ r /\ l <> [].
Proof.
  revert l r. induction b as [|x b IH]; intros l r; simpl; [discriminate|].
  destruct (Byte.eqb x x0a).
  - intros [= <- <-]. split; [reflexivity|discriminate].
  - destruct (take_line b) as [[l' r']|]; [|discriminate].
    intros [= <- <-]. destruct (IH l' r' eq_refl) as [-> _].
    split; [reflexivity|discriminate].
Qed.

(** A line that is not empty was taken from the input. *)
Lemma readline_shrinks (w w' : world) (x : byte) (l : list byte) :
  readline w = (Ok (x :: l), w') ->
  List.length (input w') < List.length (input w).
Proof.
  unfold readline. destruct (take_line (input w)) as [[line rest]|] eqn:E.
  - intros [= -> <-]. apply take_line_split in E. destruct E as [-> _].
    simpl. rewrite length_app. simpl. lia.
  - destruct (eof w); [|discriminate].
    intros [= -> <-]. simpl. lia.
Qed.

(** More fuel than the input has octets is as good as any more: the header
    loop never stops for lack of it. *)
Lemma read_headers_fuel (f1 : nat) :
  forall f2 hs w,
    List.length (input w) < f1 -> List.length (input w) < f2 ->
    read_headers decode f1 hs w = read_headers decode f2 hs w.
Proof.
  induction f1 as [|f1 IH]; intros f2 hs w H1 H2; [lia|].
  destruct f2 as [|f2]; [lia|].
  cbn [read_headers]. unfold bind at 1 3.
  destruct (readline w) as [[line| |] w'] eqn:E; try reflexivity.
  destruct (bytes_eqb line [x0d; x0a]); [reflexivity|].
  destruct line as [|x l]; [reflexivity|].
  apply readline_shrinks in E.
  unfold bind, decoded. destruct (decode (x :: l)) as [text|]; [|reflexivity].
  unfold ret.
  destruct (contains ":" (strip text)).
  - destruct (split1 ": " (strip text)) as [[key value]|]; [|reflexivity].
    apply IH; lia.
  - apply IH; lia.
Qed.

Lemma readline_split (w w' : world) (line : list byte) :
  readline w = (Ok line, w') -> input w = line ++ input w'.
Proof.
  unfold readline. destruct (take_line (input w)) as [[l r]|] eqn:E.
  - intros [= <- <-]. now apply take_line_split in E.
  - destruct (eof w); [|discriminate].
    intros [= <- <-]. simpl. now rewrite app_nil_r.
Qed.

Lemma bytes_eqb_eq (a b : list byte) : bytes_eqb a b = true -> a = b.
Proof.
  revert b. induction a as [|x a IH]; intros [|y b]; simpl; try discriminate.
  - reflexivity.
  - intros H. apply andb_true_iff in H. destruct H as [Hx Hab].
    apply Byte.byte_dec_bl in Hx. apply IH in Hab. congruence.
Qed.

(** The header loop stops right behind the first line that is a bare
    CR LF: what follows that line is still to be read. *)
Lemma read_headers_consumed (fuel : nat) :
  forall hs w hs' w',
    read_headers decode fuel hs w = (Ok hs', w') ->
    exists lines, input w = lines ++ [x0d; x0a] ++ input w'.
Proof.
  induction fuel as [|fuel IH]; intros hs w hs' w'; [discriminate|].
  cbn [read_headers]. unfold bind at 1.
  destruct (readline w) as [[line| |] wa] eqn:E; try discriminate.
  apply readline_split in E.
  destruct (bytes_eqb line [x0d; x0a]) eqn:Eb.
  - intros [= <- <-]. apply bytes_eqb_eq in Eb. subst line. now exists [].
  - destruct line as [|x l]; [discriminate|].
    unfold bind, decoded. destruct (decode (x :: l)) as [text|]; [|discriminate].
    unfold ret.
    assert (Hrec : forall hs1, read_headers decode fuel hs1 wa = (Ok hs', w') ->
                     exists lines, input w = lines ++ [x0d; x0a] ++ input w').
    { intros hs1 H. destruct (IH _ _ _ _ H) as (lines & Hl).
      exists ((x :: l) ++ lines). now rewrite E, Hl, <- app_assoc. }
    destruct (contains ":" (strip text)).
    + destruct (split1 ": " (strip text)) as [[key value]|]; [|discriminate].
      apply Hrec.
    + apply Hrec.
Qed.

Lemma read_head_consumed (w w1 : world) (rl : string) (hs : dict) :
  read_head decode w = (Ok (rl, hs), w1) ->
  exists head, input w = head ++ [x0d; x0a] ++ input w1.
Proof.
  unfold read_head. unfold bind at 1.
  destruct (readline w) as [[data| |] wa] eqn:E; try discriminate.
  apply readline_split in E.
  unfold bind at 1, decoded. destruct (decode data); [|discriminate].
  unfold ret, bind.
  destruct (read_headers decode _ [] wa) as [[hs1| |] wb] eqn:Eh; try discriminate.
  intros [= _ _ <-]. apply read_headers_consumed in Eh.
  destruct Eh as (lines & Hl). exists (data ++ lines).
  now rewrite E, Hl, <- app_assoc.
Qed.

(** Reading changes nothing but the input. *)
Lemma readline_frame (w w' : world) (o : outcome (list byte)) :
  readline w = (o, w') -> w' = set_input (input w') w.
Proof.
  unfold readline. destruct (take_line (input w)) as [[l r]|].
  - now intros [= <- <-].
  - destruct (eof w); intros [= <- <-]; [reflexivity|now destruct w].
Qed.

Lemma set_input_twice (a b : list byte) (w : world) :
  set_input a (set_input b w) = set_input a w.
Proof. reflexivity. Qed.

Lemma read_headers_frame (fuel : nat) :
  forall hs w o w',
    read_headers decode fuel hs w = (o, w') -> w' = set_input (input w') w.
Proof.
  induction fuel as [|fuel IH]; intros hs w o w';
    [intros [= <- <-]; now destruct w|].
  cbn [read_headers]. unfold bind at 1.
  destruct (readline w) as [[line| |] wa] eqn:E; apply readline_frame in E;
    try (intros [= <- <-]; exact E).
  assert (Hrec : forall hs1, read_headers decode fuel hs1 wa = (o, w') ->
                             w' = set_input (input w') w).
  { intros hs1 H. apply IH in H. rewrite H, E. reflexivity. }
  destruct (bytes_eqb line [x0d; x0a]); [intros [= <- <-]; exact E|].
  destruct line as [|x l]; [intros [= <- <-]; exact E|].
  unfold bind, decoded. destruct (decode (x :: l)) as [text|];
    [|intros [= <- <-]; exact E].
  unfold ret. destruct (contains ":" (strip text)).
  - destruct (split1 ": " (strip text)) as [[key value]|];
      [apply Hrec|intros [= <- <-]; exact E].
  - apply Hrec.
Qed.

Lemma read_head_frame (w w1 : world) (o : outcome (string * dict)) :
  read_head decode w = (o, w1) -> w1 = set_input (input w1) w.
Proof.
  unfold read_head. unfold bind at 1.
  destruct (readline w) as [[data| |] wa] eqn:E; apply readline_frame in E;
    try (intros [= <- <-]; exact E).
  unfold bind at 1, decoded. destruct (decode data);
    [|intros [= <- <-]; exact E].
  unfold ret, bind.
  destruct (read_headers decode _ [] wa) as [[hs| |] wb] eqn:Eh;
    apply read_headers_frame in Eh; intros [= <- <-];
    rewrite Eh, E; reflexivity.
Qed.





Lemma emit_twice (a b : event) (w : world) :
  (emit a ;; emit b) w = (Ok tt, after w 0 [a; b]).
Proof. unfold bind, emit. now rewrite after_after. Qed.


(** When the pattern is not found in what was read as the body, the body
    of the [try] writes the 400 response and attempts nothing. *)
Lemma configure_no_match (cl : Z) (w : world) (b0 b1 b2 : byte)
    (rest : list byte) (post_str : string) :
  input w = b0 :: b1 :: b2 :: rest -> (0 <= cl)%Z ->
  decode (firstn (Z.to_nat cl) (b2 :: rest)) = Some post_str ->
  Re.search Re.credentials post_str = None ->
  configure decode cl w
  = (Ok tt, after (set_input (skipn (Z.to_nat cl) (b2 :: rest)) w) 0
              [EWrite invalid_data]).
Proof.
  intros Hin Hcl Hdec Hno.
  unfold configure. unfold bind at 1. unfold readexactly. rewrite Hin.
  cbn [List.length Nat.leb firstn skipn].
  unfold bind at 1. unfold read. cbn [input set_input].
  destruct (Z.ltb_spec cl 0) as [|_]; [lia|].
  unfold bind at 1, decoded. rewrite Hdec. unfold ret. rewrite Hno.
  reflexivity.
Qed.

Lemma readexactly_trace (n : nat) (w w' : world) (o : outcome (list byte)) :
  readexactly n w = (o, w') -> trace w' = trace w.
Proof.
  unfold readexactly. destruct (Nat.leb n _); [now intros [= <- <-]|].
  destruct (eof w); now intros [= <- <-].
Qed.

Lemma read_trace (n : Z) (w w' : world) (o : outcome (list byte)) :
  read n w = (o, w') -> trace w' = trace w.
Proof.
  unfold read. destruct (n <? 0)%Z.
  - destruct (eof w); now intros [= <- <-].
  - destruct (input w); [destruct (eof w)|]; now intros [= <- <-].
Qed.



End HttpFacts.

(** ** The handler on some requests *)

Section HttpRuns.
Import Py Wifi Http Samples.

(** C5, on the code.  The request with body [id=MyNet&password=secret123]
    and [Content-Length: 27]: the header loop has read the blank line, the
    two octets that [readexactly(2)] skips are the [id] of the body, the
    pattern is searched in [=MyNet&password=secret123] and is not found.
    The handler answers 400 and attempts no connection, whatever the store
    and the station are. *)
Theorem configure_drops_two_octets (success_page : string)
    (selection_page : string -> string) (w : world) :
  input w = post_configure ["Content-Length: 27"] "id=MyNet&password=secret123" ->
  handle_http_connection utf8_decode success_page selection_page w
  = (Ok tt, after (set_input [] w) 0 [EWrite invalid_data; EClose]).
Proof.
  destruct w as [f p c n i e t]. cbn [input]. intros ->.
  set (w := Build_world _ _ _ _ _ _ _).
  assert (Hhead : read_head utf8_decode w
                  = (Ok (request_line, [("content-length", "27")]),
                     set_input (octets "id=MyNet&password=secret123") w))
    by reflexivity.
  assert (Hbody : configure utf8_decode 27
                    (set_input (octets "id=MyNet&password=secret123") w)
                  = (Ok tt, after (set_input [] w) 0 [EWrite invalid_data]))
    by reflexivity.
  unfold handle_http_connection, bind at 1. rewrite Hhead.
  cbn [fst snd].
  change (route utf8_decode success_page selection_page request_line
            [("content-length", "27")])
    with (try_except (configure utf8_decode 27)
                     (fun _ => emit (EWrite server_error)) ;;
          emit EClose).
  unfold bind, try_except. rewrite Hbody.
  unfold emit. now rewrite after_after.
Qed.

Lemma configure_drops_two_octets_witness :
  let w := portal (post_configure ["Content-Length: 27"] "id=MyNet&password=secret123") in
  handle_http_connection utf8_decode success_text selection_text w
  = (Ok tt, after (set_input [] w) 0 [EWrite invalid_data; EClose]) /\
  attempts (trace (after (set_input [] w) 0 [EWrite invalid_data; EClose])) = [].
Proof.
  split; [|reflexivity].
  apply (configure_drops_two_octets success_text selection_text (portal _)).
  reflexivity.
Defined.

(** The body the portal's own form submits is matched, because the two
    octets dropped are the [ss] of [ssid=]. *)
Example configure_form_body :
  let w := portal (post_configure ["Content-Length: 29"] "ssid=MyNet&password=secret123") in
  let (r, w') := handle_http_connection utf8_decode success_text selection_text w in
  r = Ok tt /\
  trace w' = [EConnect "MyNet" "secret123"; EIsConnected true; EIfconfig;
              EWrite found; EClose] /\
  file w' = Some (Store.written [("MyNet", "secret123")]).
Proof. vm_compute. repeat split. Qed.



(** So does a header line with a colon that no space follows: the line is
    split on colon-space into one part, which cannot be unpacked. *)
Example header_without_space_escapes :
  exists w',
    handle_http_connection utf8_decode success_text selection_text
      (portal (octets "GET / HTTP/1.1" ++ [x0d; x0a]
               ++ octets "Host:10.0.0.1" ++ [x0d; x0a; x0d; x0a]))
    = (Raise ValueError, w') /\
    trace w' = [].
Proof. eexists. split; reflexivity. Qed.


End HttpRuns.

(** ** More on the credential store *)

Section StoreMore.
Import Py Store View.

Lemma contains_lstrip (c : ascii) (s : string) :
  contains c s = false -> contains c (lstrip s) = false.
Proof.
  induction s as [|a s IH]; simpl; [reflexivity|].
  intros H. apply orb_false_iff in H. destruct H as [Ha Hs].
  destruct (is_space a); [now apply IH|]. simpl. now rewrite Ha, Hs.
Qed.

Lemma contains_rstrip (c : ascii) (s : string) :
  contains c s = false -> contains c (rstrip s) = false.
Proof.
  induction s as [|a s IH]; simpl; [reflexivity|].
  intros H. apply orb_false_iff in H. destruct H as [Ha Hs].
  specialize (IH Hs).
  destruct (rstrip s) as [|b r].
  - destruct (is_space a); [reflexivity|]. simpl. now rewrite Ha.
  - cbn [contains] in *. now rewrite Ha, IH.
Qed.

Lemma strip_snoc_space (s : string) (c : ascii) :
  is_space c = true -> strip (s +++ String c EmptyString) = strip s.
Proof.
  intros Hc. unfold strip. induction s as [|a s IH].
  - simpl. now rewrite Hc.
  - cbn [append lstrip]. destruct (is_space a); [exact IH|].
    change (String a (s +++ String c EmptyString))
      with (String a s +++ String c EmptyString).
    now apply rstrip_snoc_space.
Qed.

Lemma rstrip_ends (s : string) : ends_space (rstrip s) = false.
Proof.
  induction s as [|a s IH]; [reflexivity|].
  cbn [rstrip]. destruct (rstrip s) as [|b r] eqn:E.
  - destruct (is_space a) eqn:Ha; [reflexivity|]. simpl. exact Ha.
  - exact IH.
Qed.

Lemma lstrip_starts (s : string) : starts_space (lstrip s) = false.
Proof.
  induction s as [|a s IH]; [reflexivity|].
  cbn [lstrip]. destruct (is_space a) eqn:Ha; [exact IH|]. simpl. exact Ha.
Qed.

Lemma rstrip_starts (s : string) :
  starts_space s = false -> starts_space (rstrip s) = false.
Proof.
  destruct s as [|a s]; [reflexivity|].
  cbn [rstrip starts_space]. intros Ha.
  destruct (rstrip s); [now rewrite Ha|exact Ha].
Qed.

Lemma strip_trimmed (s : string) :
  starts_space (strip s) = false /\ ends_space (strip s) = false.
Proof.
  unfold strip. split; [apply rstrip_starts, lstrip_starts|apply rstrip_ends].
Qed.

(** The parts of a split hold no separator, and joined by it they are the
    text that was split. *)
Lemma split_pair (sep : ascii) (s a b : string) :
  split sep s = [a; b] ->
  s = a +++ String sep b /\ contains sep a = false /\ contains sep b = false.
Proof.
  revert a. induction s as [|c s IH]; intros a; simpl; [discriminate|].
  destruct (Ascii.eqb_spec c sep) as [->|Hc].
  - intros [= <- Hs]. simpl.
    pose proof (split_length sep s) as Hl. rewrite Hs in Hl. simpl in Hl.
    assert (Hn : contains sep s = false).
    { apply contains_count. lia. }
    rewrite (split_absent _ _ Hn) in Hs. injection Hs as <-. auto.
  - destruct (split sep s) as [|p ps] eqn:Es; [discriminate|].
    intros [= <- ->]. destruct (IH p eq_refl) as (-> & Hp & Hb).
    simpl. apply Ascii.eqb_neq in Hc. rewrite Hc. auto.
Qed.

(** A line of [readlines] holds a line feed at its end or nowhere. *)
Lemma readlines_lines (text line : string) :
  In line (readlines text) ->
  exists body, contains LF body = false /\
               (line = body \/ line = body +++ String LF EmptyString).
Proof.
  revert line. induction text as [|c text IH]; intros line; simpl; [tauto|].
  destruct (Ascii.eqb_spec c LF) as [->|Hc].
  - intros [<-|Hin]; [|now apply IH].
    exists EmptyString. split; [reflexivity|now right].
  - apply Ascii.eqb_neq in Hc.
    destruct (readlines text) as [|l ls] eqn:E.
    + intros [<-|[]]. exists (String c EmptyString).
      split; [simpl; now rewrite Hc|now left].
    + intros [<-|Hin]; [|apply IH; now right].
      destruct (IH l (or_introl eq_refl)) as (body & Hb & Hl).
      exists (String c body). split; [simpl; now rewrite Hc, Hb|].
      destruct Hl as [->| ->]; [now left|now right].
Qed.

(** What a two-part line gives: fields without delimiter or line feed, a
    name that does not start and a secret that does not end with
    whitespace. *)
Lemma line_fields (text line s p : string) :
  In line (readlines text) ->
  split SEP (strip line) = [s; p] ->
  plain_text s /\ plain_text p /\ starts_space s = false /\ ends_space p = false.
Proof.
  intros Hin Hsp.
  destruct (readlines_lines _ _ Hin) as (body & Hb & Hl).
  assert (Hlf : contains LF (strip line) = false).
  { destruct Hl as [->| ->]; [|rewrite strip_snoc_space by reflexivity];
      unfold strip; now apply contains_rstrip, contains_lstrip. }
  destruct (strip_trimmed line) as [Hst Hen].
  destruct (split_pair _ _ _ _ Hsp) as (E & Hs & Hp).
  rewrite E in Hlf, Hst, Hen.
  rewrite contains_append in Hlf. apply orb_false_iff in Hlf.
  destruct Hlf as [Hls Hlp]. cbn [contains] in Hlp.
  apply orb_false_iff in Hlp. destruct Hlp as [_ Hlp].
  repeat split; try assumption.
  - destruct s; [reflexivity|exact Hst].
  - rewrite ends_space_append in Hen by discriminate.
    destruct p; [reflexivity|exact Hen].
Qed.

Lemma keys_dict_set (k v : string) (d : dict) :
  keys (dict_set k v d) = if existsb (String.eqb k) (keys d) then keys d
                          else keys d ++ [k].
Proof.
  induction d as [|[k' v'] d IH]; simpl; [reflexivity|].
  destruct (String.eqb k k'); simpl; [reflexivity|].
  rewrite IH. now destruct (existsb _ _).
Qed.

Lemma dict_set_nodup (k v : string) (d : dict) :
  NoDup (keys d) -> NoDup (keys (dict_set k v d)).
Proof.
  intros H. rewrite keys_dict_set.
  destruct (existsb (String.eqb k) (keys d)) eqn:E; [exact H|].
  apply NoDup_app; [exact H|repeat constructor; simpl; tauto|].
  intros x Hx [Hk|[]]. subst x.
  assert (existsb (String.eqb k) (keys d) = true); [|congruence].
  apply existsb_exists. exists k. split; [exact Hx|apply String.eqb_refl].
Qed.

Lemma dict_set_forall (P : string * string -> Prop) (k v : string) (d : dict) :
  P (k, v) -> Forall P d -> Forall P (dict_set k v d).
Proof.
  intros Hkv. induction 1 as [|[k' v'] d Hx Hd IH]; simpl.
  - repeat constructor. exact Hkv.
  - destruct (String.eqb_spec k k') as [<-|_]; constructor; auto.
Qed.

Lemma read_lines_wellformed (text : string) (lines : list string) :
  forall acc d,
    (forall l, In l lines -> In l (readlines text)) ->
    NoDup (keys acc) -> plain acc -> trimmed acc ->
    read_lines lines acc = Ok d ->
    NoDup (keys d) /\ plain d /\ trimmed d.
Proof.
  induction lines as [|line lines IH]; intros acc d Hsub Hnd Hpl Htr.
  - now intros [= <-].
  - cbn [read_lines].
    destruct (split SEP (strip line)) as [|s [|p [|x t]]] eqn:E; try discriminate.
    destruct (line_fields text line s p (Hsub _ (or_introl eq_refl)) E)
      as (Hs & Hp & Hss & Hpe).
    apply IH.
    + intros l Hl. apply Hsub. now right.
    + now apply dict_set_nodup.
    + now apply dict_set_forall.
    + now apply dict_set_forall.
Qed.

Lemma read_wellformed (f : file) (d : dict) :
  _read_profiles f = Ok d -> NoDup (keys d) /\ plain d /\ trimmed d.
Proof.
  destruct f as [text|]; simpl.
  - apply (read_lines_wellformed text); try constructor. auto.
  - intros [= <-]. repeat split; constructor.
Qed.

(** X1.  Whatever the file holds, a mapping that [_read_profiles] returns
    has unique names, no delimiter and no line feed in any name or secret,
    no name that starts with whitespace and no secret that ends with it. *)
Theorem read_profiles_wellformed (f : file) (d : dict) :
  _read_profiles f = Ok d -> NoDup (keys d) /\ plain d /\ trimmed d.
Proof. apply read_wellformed. Qed.

(** X2.  Writing back a mapping that was read and reading again gives the
    same mapping: load after save after load is load. *)
Theorem read_write_read (f f' : file) (d : dict) :
  _read_profiles f = Ok d -> _read_profiles (_write_profiles d f') = Ok d.
Proof.
  intros H. apply read_wellformed in H. destruct H as (Hnd & Hpl & Htr).
  unfold _write_profiles, _read_profiles. now rewrite read_lines_written.
Qed.

Lemma dict_get_set_same (k v : string) (d : dict) :
  dict_get k (dict_set k v d) = Some v.
Proof.
  induction d as [|[k' v'] d IH]; simpl; [now rewrite String.eqb_refl|].
  destruct (String.eqb k k') eqn:E; simpl; now rewrite E.
Qed.

Lemma dict_get_set_other (k k' v : string) (d : dict) :
  k' <> k -> dict_get k' (dict_set k v d) = dict_get k' d.
Proof.
  intros Hne. induction d as [|[k2 v2] d IH]; simpl.
  - destruct (String.eqb_spec k' k); [contradiction|reflexivity].
  - destruct (String.eqb_spec k k2) as [->|_]; simpl.
    + destruct (String.eqb_spec k' k2); [contradiction|reflexivity].
    + now rewrite IH.
Qed.

(** X3.  What the handler does to the store on a successful attempt, read
    back: when the store reads as [d] and the new name and secret hold no
    delimiter and no line feed, the name does not start and the secret does
    not end with whitespace, then after [profiles[ssid] = password] and
    [_write_profiles] the store reads as the updated mapping; the new name
    maps to the new secret and all other names are as before. *)
Theorem store_profile_read_back (f f' : file) (d : dict) (s p : string) :
  _read_profiles f = Ok d ->
  plain_text s -> plain_text p ->
  starts_space s = false -> ends_space p = false ->
  exists d',
    _read_profiles (_write_profiles (dict_set s p d) f') = Ok d' /\
    dict_get s d' = Some p /\
    (forall k, k <> s -> dict_get k d' = dict_get k d).
Proof.
  intros H Hs Hp Hss Hpe.
  apply read_wellformed in H. destruct H as (Hnd & Hpl & Htr).
  exists (dict_set s p d). split; [|split].
  - unfold _write_profiles, _read_profiles. rewrite read_lines_written.
    + reflexivity.
    + now apply dict_set_nodup.
    + now apply dict_set_forall.
    + now apply dict_set_forall.
  - apply dict_get_set_same.
  - intros k Hk. now apply dict_get_set_other.
Qed.

Lemma readlines_written (M : dict) :
  one_line M ->
  readlines (written M)
  = map (fun item => (fst item +++ String SEP (snd item)) +++ String LF EmptyString) M.
Proof.
  induction 1 as [|[s p] M [Hs Hp] _ IH]; [reflexivity|].
  simpl in Hs, Hp. rewrite written_cons, readlines_line.
  - cbn [map fst snd]. now rewrite IH.
  - rewrite contains_append. simpl. now rewrite Hs, Hp.
Qed.

(** X4.  A delimiter inside a stored name or secret spoils the store: when
    no field holds a line feed and some field holds a [;], what
    [_write_profiles] writes makes [_read_profiles] raise [ValueError]. *)
Theorem delimiter_spoils_store (M : dict) (f : file) :
  one_line M ->
  Exists (fun item => contains SEP (fst item) = true \/
                      contains SEP (snd item) = true) M ->
  _read_profiles (_write_profiles M f) = Raise ValueError.
Proof.
  intros Hone Hex. unfold _write_profiles, _read_profiles.
  rewrite readlines_written by exact Hone.
  apply Exists_exists in Hex. destruct Hex as ([s p] & Hin & Hsep).
  simpl in Hsep.
  apply read_lines_bad
    with (line := (s +++ String SEP p) +++ String LF EmptyString).
  - apply in_map_iff. exists (s, p). split; [reflexivity|exact Hin].
  - rewrite !count_append. cbn [count]. 
    assert (count SEP s <> 0 \/ count SEP p <> 0) as Hc.
    { destruct Hsep as [H|H]; [left|right]; intros H0;
        apply contains_count in H0; congruence. }
    change (Ascii.eqb SEP SEP) with true.
    change (Ascii.eqb LF SEP) with false. cbv iota. lia.
Qed.

Lemma dict_get_app (k : string) (a b : dict) :
  dict_get k (a ++ b)
  = match dict_get k a with Some v => Some v | None => dict_get k b end.
Proof.
  induction a as [|[k' v'] a IH]; simpl; [reflexivity|].
  now destruct (String.eqb k k').
Qed.

Lemma read_lines_last (lines : list string) :
  forall acc d k,
    read_lines lines acc = Ok d ->
    dict_get k d
    = match dict_get k (rev (map fields lines)) with
      | Some v => Some v
      | None => dict_get k acc
      end.
Proof.
  induction lines as [|line lines IH]; intros acc d k.
  - now intros [= <-].
  - cbn [read_lines map rev]. unfold fields at 2.
    destruct (split SEP (strip line)) as [|s [|p [|x t]]]; try discriminate.
    intros H. rewrite (IH _ _ k H), dict_get_app.
    destruct (dict_get k (rev (map fields lines))); [reflexivity|].
    cbn [dict_get]. destruct (String.eqb_spec k s) as [->|Hk].
    + apply dict_get_set_same.
    + now apply dict_get_set_other.
Qed.

(** X5.  When a name stands on several lines of the store, the last line
    wins: in the mapping read from a text, a name has the secret of the
    last record that bears it, and a name that no record bears is
    absent. *)
Theorem read_profiles_last_wins (text : string) (d : dict) (k : string) :
  _read_profiles (Some text) = Ok d ->
  dict_get k d = dict_get k (rev (records text)).
Proof.
  intros H. unfold _read_profiles in H.
  rewrite (read_lines_last _ _ _ k H). unfold records.
  now destruct (dict_get k _).
Qed.

End StoreMore.

Section StoreMoreRuns.
Import Py Store View Samples.

Lemma read_profiles_wellformed_witness :
  _read_profiles (Some messy_text) = Ok messy_profiles /\
  NoDup (keys messy_profiles) /\ plain messy_profiles /\ trimmed messy_profiles.
Proof.
  assert (H : _read_profiles (Some messy_text) = Ok messy_profiles) by reflexivity.
  split; [exact H|]. exact (read_profiles_wellformed _ _ H).
Defined.

Lemma read_write_read_witness :
  _read_profiles (Some messy_text) = Ok messy_profiles /\
  _read_profiles (_write_profiles messy_profiles None) = Ok messy_profiles.
Proof.
  assert (H : _read_profiles (Some messy_text) = Ok messy_profiles) by reflexivity.
  split; [exact H|]. exact (read_write_read _ None _ H).
Defined.

Lemma store_profile_read_back_witness :
  _read_profiles (Some messy_text) = Ok messy_profiles /\
  plain_text "Cafe" /\ plain_text "latte 2" /\
  starts_space "Cafe" = false /\ ends_space "latte 2" = false /\
  exists d',
    _read_profiles (_write_profiles (dict_set "Cafe" "latte 2" messy_profiles) None)
    = Ok d' /\
    dict_get "Cafe" d' = Some "latte 2" /\
    (forall k, k <> "Cafe" -> dict_get k d' = dict_get k messy_profiles).
Proof.
  assert (H : _read_profiles (Some messy_text) = Ok messy_profiles) by reflexivity.
  assert (Hs : plain_text "Cafe") by (split; reflexivity).
  assert (Hp : plain_text "latte 2") by (split; reflexivity).
  assert (Hss : starts_space "Cafe" = false) by reflexivity.
  assert (Hpe : ends_space "latte 2" = false) by reflexivity.
  split; [exact H|]. split; [exact Hs|]. split; [exact Hp|].
  split; [exact Hss|]. split; [exact Hpe|].
  exact (store_profile_read_back _ None _ _ _ H Hs Hp Hss Hpe).
Defined.

Lemma delimiter_spoils_store_witness :
  one_line [("Home", "pw;1")] /\
  Exists (fun item => contains SEP (fst item) = true \/
                      contains SEP (snd item) = true) [("Home", "pw;1")] /\
  _read_profiles (_write_profiles [("Home", "pw;1")] None) = Raise ValueError.
Proof.
  assert (H1 : one_line [("Home", "pw;1")]) by (repeat constructor).
  assert (H2 : Exists (fun item => contains SEP (fst item) = true \/
                                   contains SEP (snd item) = true)
                 [("Home", "pw;1")]) by (constructor; now right).
  split; [exact H1|]. split; [exact H2|].
  exact (delimiter_spoils_store _ None H1 H2).
Defined.

Lemma read_profiles_last_wins_witness :
  _read_profiles (Some messy_text) = Ok messy_profiles /\
  dict_get "Home" messy_profiles = dict_get "Home" (rev (records messy_text)).
Proof.
  assert (H : _read_profiles (Some messy_text) = Ok messy_profiles) by reflexivity.
  split; [exact H|]. exact (read_profiles_last_wins _ _ "Home" H).
Defined.

End StoreMoreRuns.

(** ** More on the pattern search *)

Section ReMore.
Import Py Re.

Lemma run_star_cons (a : atom) (r : regex) (c : ascii) (s : string) (sv : saves) :
  run (Star a :: r) (String c s) sv
  = if accepts a c
    then match run (Star a :: r) s sv with
         | Some m => Some m
         | None => run r (String c s) sv
         end
    else run r (String c s) sv.
Proof. reflexivity. Qed.

Lemma search_inv (r : regex) (s : string) (m : saves) :
  search r s = Some m ->
  exists pre s', s = pre +++ s' /\ run r s' [] = Some m.
Proof.
  induction s as [|c s IH]; cbn [search].
  - destruct (run r EmptyString []) eqn:E; [|discriminate].
    intros [= <-]. now exists EmptyString, EmptyString.
  - destruct (run r (String c s) []) eqn:E.
    + intros [= <-]. now exists EmptyString, (String c s).
    + intros H. destruct (IH H) as (pre & s' & -> & Hr).
      now exists (String c pre), s'.
Qed.

Lemma search_found (r : regex) (s : string) (m : saves) (pre : string) :
  run r s [] = Some m -> exists m', search r (pre +++ s) = Some m'.
Proof.
  intros H. induction pre as [|c pre IH].
  - exists m. now apply search_hit.
  - cbn [append search].
    destruct (run r (String c (pre +++ s)) []) as [m'|]; [now exists m'|].
    exact IH.
Qed.

Lemma run_literal_inv (p : string) (r : regex) (s : string) (sv m : saves) :
  run (literal p ++ r) s sv = Some m ->
  exists s', s = p +++ s' /\ run r s' sv = Some m.
Proof.
  revert s. induction p as [|c p IH]; intros s; [now exists s|].
  cbn [literal app run]. destruct s as [|a s]; [discriminate|].
  cbn [accepts]. destruct (Ascii.eqb_spec a c) as [->|]; [|discriminate].
  intros H. destruct (IH _ H) as (s' & -> & Hr). now exists s'.
Qed.

Lemma run_star_not_inv (c : ascii) (r : regex) (s : string) (sv m : saves) :
  run (Star (NotChar c) :: r) s sv = Some m ->
  exists x s', s = x +++ s' /\ contains c x = false /\ run r s' sv = Some m.
Proof.
  induction s as [|a s IH].
  - intros H. now exists EmptyString, EmptyString.
  - rewrite run_star_cons. cbn [accepts].
    destruct (Ascii.eqb a c) eqn:Ea; cbn [negb].
    + intros H. now exists EmptyString, (String a s).
    + destruct (run (Star (NotChar c) :: r) s sv) as [m'|] eqn:E.
      * intros [= <-]. destruct (IH eq_refl) as (x & s' & -> & Hx & Hr).
        exists (String a x), s'. repeat split; [|exact Hr].
        simpl. now rewrite Ea, Hx.
      * intros H. now exists EmptyString, (String a s).
Qed.

Lemma run_star_any_end (k : nat) (s : string) (sv : saves) :
  run [Star Any; Save k] s sv = Some ((k, EmptyString) :: sv).
Proof.
  induction s as [|a s IH]; [reflexivity|].
  rewrite run_star_cons. cbn [accepts]. now rewrite IH.
Qed.

(** X6.  The pattern is found in a text exactly when the text holds [id=],
    then some [X] free of [&], then [&password=]; and whenever it is found,
    the text is some prefix, [id=X&password=Y] with [X] free of [&], and
    the two groups are [X] and the whole rest [Y]. *)
Theorem credentials_search_exact (s : string) :
  (forall m, search credentials s = Some m ->
     exists pre x y,
       s = pre +++ "id=" +++ x +++ "&password=" +++ y /\
       contains "&" x = false /\ group 1 m = x /\ group 2 m = y) /\
  (forall pre x y,
     s = pre +++ "id=" +++ x +++ "&password=" +++ y ->
     contains "&" x = false ->
     exists m, search credentials s = Some m).
Proof.
  split.
  - intros m H. apply search_inv in H. destruct H as (pre & s0 & -> & H).
    unfold credentials in H.
    apply run_literal_inv in H. destruct H as (s1 & -> & H).
    cbn [app] in H. rewrite run_save in H.
    apply run_star_not_inv in H. destruct H as (x & s2 & -> & Hx & H).
    rewrite run_save in H.
    apply run_literal_inv in H. destruct H as (y & -> & H).
    rewrite run_save, run_star_any_end in H. injection H as <-.
    exists pre, x, y. split; [reflexivity|]. split; [exact Hx|].
    exact (credentials_groups x y).
  - intros pre x y -> Hx.
    apply search_found with (m := [(5, EmptyString); (4, y);
                                   (3, "&password=" +++ y);
                                   (2, x +++ "&password=" +++ y)]).
    now apply run_credentials.
Qed.

Lemma credentials_search_exact_witness :
  search credentials "x=1&id=My Net&password=a&b"
  = Some [(5, EmptyString); (4, "a&b"); (3, "&password=a&b");
          (2, "My Net&password=a&b")] /\
  exists pre x y,
    "x=1&id=My Net&password=a&b" = pre +++ "id=" +++ x +++ "&password=" +++ y /\
    contains "&" x = false /\
    group 1 [(5, EmptyString); (4, "a&b"); (3, "&password=a&b");
             (2, "My Net&password=a&b")] = x /\
    group 2 [(5, EmptyString); (4, "a&b"); (3, "&password=a&b");
             (2, "My Net&password=a&b")] = y.
Proof.
  assert (H : search credentials "x=1&id=My Net&password=a&b"
              = Some [(5, EmptyString); (4, "a&b"); (3, "&password=a&b");
                      (2, "My Net&password=a&b")]) by reflexivity.
  split; [exact H|].
  exact (proj1 (credentials_search_exact _) _ H).
Defined.

End ReMore.

(** ** More on the HTTP portal handler *)

Section HttpMore.
Import Py Wifi Http View.

Variable decode : list byte -> option string.
Variable success_page : string.
Variable selection_page : string -> string.

Lemma readline_trace (w w' : world) (o : outcome (list byte)) :
  readline w = (o, w') -> trace w' = trace w.
Proof.
  unfold readline. destruct (take_line (input w)) as [[l r]|].
  - now intros [= <- <-].
  - destruct (eof w); now intros [= <- <-].
Qed.

Lemma read_headers_trace (fuel : nat) :
  forall hs w o w', read_headers decode fuel hs w = (o, w') -> trace w' = trace w.
Proof.
  induction fuel as [|fuel IH]; intros hs w o w'; [now intros [= <- <-]|].
  cbn [read_headers]. unfold bind at 1.
  destruct (readline w) as [[line| |] wa] eqn:E; apply readline_trace in E;
    rewrite <- E; try (now intros [= <- <-]).
  destruct (bytes_eqb line [x0d; x0a]); [now intros [= <- <-]|].
  destruct line as [|x l]; [now intros [= <- <-]|].
  unfold bind, decoded. destruct (decode (x :: l)) as [text|];
    [|now intros [= <- <-]].
  unfold ret. destruct (contains ":" (strip text)).
  - destruct (split1 ": " (strip text)) as [[key value]|];
      [apply IH|now intros [= <- <-]].
  - apply IH.
Qed.

(** Reading the head writes nothing and touches neither station nor store. *)
Lemma read_head_trace (w w1 : world) (o : outcome (string * dict)) :
  read_head decode w = (o, w1) -> trace w1 = trace w.
Proof.
  unfold read_head. unfold bind at 1.
  destruct (readline w) as [[data| |] wa] eqn:E; apply readline_trace in E;
    rewrite <- E; try (now intros [= <- <-]).
  unfold bind at 1, decoded. destruct (decode data); [|now intros [= <- <-]].
  unfold ret, bind.
  destruct (read_headers decode _ [] wa) as [[hs| |] wb] eqn:Eh;
    apply read_headers_trace in Eh; now intros [= <- <-].
Qed.

Lemma has_crlf_app (a b : list byte) :
  has_crlf (a ++ [x0d; x0a] ++ b) = true.
Proof.
  induction a as [|x a IH]; [reflexivity|].
  change ((x :: a) ++ [x0d; x0a] ++ b) with (x :: (a ++ [x0d; x0a] ++ b)).
  revert IH. generalize (a ++ [x0d; x0a] ++ b). intros l Hl.
  destruct l as [|y t]; [discriminate|].
  change (has_crlf (x :: y :: t))
    with ((Byte.eqb x x0d && Byte.eqb y x0a) || has_crlf (y :: t)).
  rewrite Hl. apply orb_true_r.
Qed.

(** X7.  A request in which no CR is followed by a LF is never answered:
    the header loop ends only at a line that is exactly CR LF, so the
    handler hangs or raises, and it writes nothing and does not close. *)
Theorem no_crlf_no_answer (w : world) :
  has_crlf (input w) = false ->
  exists o w',
    handle_http_connection decode success_page selection_page w = (o, w') /\
    (o = Hang \/ exists e, o = Raise e) /\
    trace w' = trace w.
Proof.
  intros Hno. unfold handle_http_connection, bind.
  destruct (read_head decode w) as [[[rl hs]| |] w1] eqn:E.
  - destruct (read_head_consumed _ _ _ _ _ E) as (head & Hin).
    rewrite Hin, has_crlf_app in Hno. discriminate.
  - apply read_head_trace in E. exists (Raise e), w1.
    split; [reflexivity|]. split; [right; now exists e|exact E].
  - apply read_head_trace in E. exists Hang, w1.
    split; [reflexivity|]. split; [now left|exact E].
Qed.

Lemma responses_app (a b : list event) :
  responses (a ++ b) = responses a ++ responses b.
Proof.
  induction a as [|e a IH]; [reflexivity|].
  destruct e; simpl; rewrite ?IH; reflexivity.
Qed.

Lemma closes_app (a b : list event) : closes (a ++ b) = closes a + closes b.
Proof.
  induction a as [|e a IH]; [reflexivity|].
  destruct e; simpl; rewrite ?IH; reflexivity.
Qed.

Lemma waits_quiet (k : nat) : responses (waits k) = [] /\ closes (waits k) = 0.
Proof. induction k as [|k [IH1 IH2]]; simpl; auto. Qed.

(** An attempt writes no response and closes nothing. *)
Lemma wifi_connect_quiet (s p : string) (w : world) :
  exists r n evs,
    _wifi_connect s p w = (Ok r, after w n evs) /\
    responses evs = [] /\ closes evs = 0.
Proof.
  destruct (waits_quiet 100) as [Hr Hc].
  destruct (wifi_connect_cases s p w) as [(k & _ & E)|E]; rewrite E.
  - destruct (waits_quiet k) as [Hrk Hck].
    eexists; eexists; eexists. split; [reflexivity|].
    cbn [responses closes]. rewrite responses_app, closes_app, Hrk, Hck.
    split; reflexivity.
  - eexists; eexists; eexists. split; [reflexivity|].
    cbn [responses closes]. rewrite responses_app, closes_app, Hr, Hc.
    split; reflexivity.
Qed.

(** The body of the [try] writes its one response last, or none when it
    does not return; it closes nothing. *)
Lemma configure_shape (cl : Z) (w w2 : world) (o : outcome unit) :
  configure decode cl w = (o, w2) ->
  exists evs,
    trace w2 = trace w ++ evs /\ closes evs = 0 /\
    match o with
    | Ok _ => exists text, responses evs = [text]
    | _ => responses evs = []
    end.
Proof.
  unfold configure. unfold bind at 1.
  destruct (readexactly 2 w) as [[skipped| |] wa] eqn:Ea;
    apply readexactly_trace in Ea; rewrite <- Ea;
    try (intros [= <- <-]; exists []; rewrite app_nil_r; now repeat split).
  unfold bind at 1.
  destruct (read cl wa) as [[post_data| |] wb] eqn:Eb;
    apply read_trace in Eb; rewrite <- Eb;
    try (intros [= <- <-]; exists []; rewrite app_nil_r; now repeat split).
  unfold bind at 1, decoded.
  destruct (decode post_data) as [post_str|];
    [|intros [= <- <-]; exists []; rewrite app_nil_r; now repeat split].
  unfold ret.
  destruct (Re.search Re.credentials post_str) as [m|].
  - unfold bind at 1.
    destruct (wifi_connect_quiet (Re.group 1 m) (Re.group 2 m) wb)
      as (r & n & evs & E & Hr & Hc). rewrite E. destruct r.
    + unfold bind at 1. unfold Wifi._read_profiles.
      destruct (Store._read_profiles _) as [profiles| |];
        try (intros [= <- <-]; exists evs; now repeat split).
      unfold bind, Wifi._write_profiles, emit. intros [= <- <-].
      exists (evs ++ [EWrite found]). cbn [after trace set_file].
      rewrite <- app_assoc, responses_app, closes_app, Hr, Hc.
      repeat split. now exists found.
    + unfold emit. intros [= <- <-].
      exists (evs ++ [EWrite not_joined]). cbn [after trace].
      rewrite <- app_assoc, responses_app, closes_app, Hr, Hc.
      repeat split. now exists not_joined.
  - unfold emit. intros [= <- <-]. exists [EWrite invalid_data].
    repeat split. now exists invalid_data.
Qed.

Lemma selection_page_shape (w : world) :
  exists o, _generate_wifi_selection_page decode selection_page w
            = (o, after w 0 [EScan]).
Proof.
  unfold _generate_wifi_selection_page, bind, emit, ret.
  destruct (wifi_options decode _); eexists; reflexivity.
Qed.

(** X8.  Whatever the request, the handler either returns, and then it has
    written exactly one response and closed the connection once, as its
    last act; or it raises or hangs, and then it has written no response
    and has not closed the connection. *)
Theorem one_response_then_close (w : world) :
  exists o w' evs,
    handle_http_connection decode success_page selection_page w = (o, w') /\
    trace w' = trace w ++ evs /\
    match o with
    | Ok _ => exists evs0 text,
                evs = evs0 ++ [EClose] /\ responses evs0 = [text] /\ closes evs0 = 0
    | _ => responses evs = [] /\ closes evs = 0
    end.
Proof.
  unfold handle_http_connection, bind at 1.
  destruct (read_head decode w) as [[[rl hs]| |] w1] eqn:E;
    apply read_head_trace in E; rewrite <- E;
    try (eexists; exists w1, []; rewrite app_nil_r; now repeat split).
  cbn [fst snd]. unfold route.
  destruct (startswith rl "POST /configure").
  - destruct (dict_get "content-length" hs) as [value|].
    + unfold bind at 1. destruct (Py.int value) as [cl|];
        [|eexists; exists w1, []; rewrite app_nil_r; now repeat split].
      unfold ret, bind, try_except.
      destruct (configure decode cl w1) as [[[]|e|] w2] eqn:Ec;
        destruct (configure_shape _ _ _ _ Ec) as (evs & Ht & Hc & Hr).
      * destruct Hr as (text & Hr).
        eexists; eexists; exists (evs ++ [EClose]).
        split; [reflexivity|]. cbn [emit after trace].
        split; [now rewrite Ht, <- app_assoc|]. now exists evs, text.
      * eexists; eexists; exists ((evs ++ [EWrite server_error]) ++ [EClose]).
        split; [reflexivity|]. cbn [emit after trace].
        split; [now rewrite Ht, <- !app_assoc|].
        exists (evs ++ [EWrite server_error]), server_error.
        rewrite responses_app, closes_app, Hr, Hc. now repeat split.
      * eexists; eexists; exists evs. now repeat split.
    + rewrite emit_twice.
      eexists; eexists; exists ([EWrite missing_length] ++ [EClose]).
      split; [reflexivity|]. split; [reflexivity|].
      now exists [EWrite missing_length], missing_length.
  - destruct (startswith rl "GET /success").
    + unfold bind, emit. rewrite !after_after.
      eexists; eexists;
        exists ([EWrite (ok_head +++ success_page); ETimer 500] ++ [EClose]).
      split; [reflexivity|]. split; [reflexivity|].
      now exists [EWrite (ok_head +++ success_page); ETimer 500],
                 (ok_head +++ success_page).
    + unfold bind at 1.
      destruct (selection_page_shape w1) as (o & Ep). rewrite Ep.
      destruct o as [page|e|].
      * unfold bind, emit. rewrite !after_after.
        eexists; eexists; exists ([EScan; EWrite (ok_head +++ page)] ++ [EClose]).
        split; [reflexivity|]. split; [reflexivity|].
        now exists [EScan; EWrite (ok_head +++ page)], (ok_head +++ page).
      * eexists; eexists; exists [EScan]. now repeat split.
      * eexists; eexists; exists [EScan]. now repeat split.
Qed.

Lemma readexactly_frame (n : nat) (w w' : world) (o : outcome (list byte)) :
  readexactly n w = (o, w') -> w' = set_input (input w') w.
Proof.
  unfold readexactly. destruct (Nat.leb n _); [now intros [= <- <-]|].
  destruct (eof w); intros [= <- <-]; [reflexivity|now destruct w].
Qed.

Lemma read_frame (n : Z) (w w' : world) (o : outcome (list byte)) :
  read n w = (o, w') -> w' = set_input (input w') w.
Proof.
  unfold read. destruct (n <? 0)%Z.
  - destruct (eof w); intros [= <- <-]; [reflexivity|now destruct w].
  - destruct (input w) eqn:Ei; [destruct (eof w)|];
      intros [= <- <-]; try reflexivity; now destruct w.
Qed.

(** What the body of the [try] does to the store: nothing, unless an
    attempt has just succeeded and the redirect is written. *)
Lemma configure_store (cl : Z) (w w2 : world) (o : outcome unit) :
  configure decode cl w = (o, w2) ->
  file w2 = file w \/
  (o = Ok tt /\
   exists s p profiles evs,
     Store._read_profiles (file w) = Ok profiles /\
     file w2 = Some (Store.written (dict_set s p profiles)) /\
     trace w2 = trace w ++ EConnect s p :: evs
                ++ [EIsConnected true; EIfconfig; EWrite found]).
Proof.
  unfold configure. unfold bind at 1.
  destruct (readexactly 2 w) as [[skipped| |] wa] eqn:Ea;
    apply readexactly_frame in Ea;
    try (intros [= <- <-]; left; now rewrite Ea).
  unfold bind at 1.
  destruct (read cl wa) as [[post_data| |] wb] eqn:Eb;
    apply read_frame in Eb; rewrite Ea, set_input_twice in Eb;
    try (intros [= <- <-]; left; now rewrite Eb).
  unfold bind at 1, decoded.
  destruct (decode post_data) as [post_str|];
    [|intros [= <- <-]; left; now rewrite Eb].
  unfold ret.
  destruct (Re.search Re.credentials post_str) as [m|];
    [|unfold emit; intros [= <- <-]; left; now rewrite Eb].
  unfold bind at 1.
  destruct (wifi_connect_cases (Re.group 1 m) (Re.group 2 m) wb)
    as [(k & _ & E)|E]; rewrite E.
  - unfold bind at 1. unfold Wifi._read_profiles.
    destruct (Store._read_profiles (file (after wb _ _))) as [profiles| |] eqn:Er;
      try (intros [= <- <-]; left; now rewrite Eb).
    unfold bind, Wifi._write_profiles, emit. intros [= <- <-].
    right. split; [reflexivity|].
    exists (Re.group 1 m), (Re.group 2 m), profiles, (waits k).
    cbn [after file] in Er. rewrite Eb in Er. cbn [set_input file] in Er.
    split; [exact Er|]. split; [reflexivity|].
    cbn [after trace set_file]. rewrite Eb. cbn [set_input trace].
    rewrite <- !app_assoc. cbn [app]. rewrite <- !app_assoc. reflexivity.
  - unfold emit. intros [= <- <-]. left. now rewrite Eb.
Qed.

(** X9.  The handler changes the store only when an attempt with the
    submitted name and secret has just succeeded: then the store read
    well, it is rewritten as the mapping it held with that name set to that
    secret, and the client is sent the redirect.  In every other case,
    whatever the request, the store is left as it was. *)
Theorem stored_only_after_join (w : world) :
  exists o w',
    handle_http_connection decode success_page selection_page w = (o, w') /\
    (file w' = file w \/
     (o = Ok tt /\
      exists s p profiles evs,
        Store._read_profiles (file w) = Ok profiles /\
        file w' = Some (Store.written (dict_set s p profiles)) /\
        trace w' = trace w ++ EConnect s p :: evs
                   ++ [EIsConnected true; EIfconfig; EWrite found; EClose])).
Proof.
  unfold handle_http_connection, bind at 1.
  destruct (read_head decode w) as [[[rl hs]| |] w1] eqn:E;
    apply read_head_frame in E;
    try (eexists; exists w1; split; [reflexivity|left; now rewrite E]).
  cbn [fst snd]. unfold route.
  destruct (startswith rl "POST /configure").
  - destruct (dict_get "content-length" hs) as [value|].
    + unfold bind at 1. destruct (Py.int value) as [cl|];
        [|eexists; exists w1; split; [reflexivity|left; now rewrite E]].
      unfold ret, bind, try_except.
      destruct (configure decode cl w1) as [[[]|e|] w2] eqn:Ec;
        destruct (configure_store _ _ _ _ Ec) as [Hf|(Ho & s & p & pr & evs & Hr & Hf & Ht)];
        try discriminate;
        try (eexists; eexists; split; [reflexivity|left];
             cbn [emit after file]; now rewrite Hf, E).
      eexists; eexists; split; [reflexivity|right]. split; [reflexivity|].
      exists s, p, pr, evs. rewrite E in Hr, Ht. cbn [set_input file trace] in Hr, Ht.
      split; [exact Hr|]. split; [exact Hf|].
      cbn [emit after trace]. rewrite Ht.
      rewrite <- !app_assoc. cbn [app]. rewrite <- !app_assoc. reflexivity.
    + rewrite emit_twice. eexists; eexists; split; [reflexivity|left].
      cbn [after file]. now rewrite E.
  - destruct (startswith rl "GET /success").
    + unfold bind, emit. eexists; eexists; split; [reflexivity|left].
      cbn [after file]. now rewrite E.
    + unfold bind at 1.
      destruct (selection_page_shape w1) as (o & Ep). rewrite Ep.
      destruct o as [page|e|]; unfold bind, emit;
        (eexists; eexists; split; [reflexivity|left]);
        cbn [after file]; now rewrite E.
Qed.






Lemma wifi_options_undecodable (names : list (list byte)) :
  Exists (fun name => decode name = None) names ->
  wifi_options decode names = Raise UnicodeError.
Proof.
  induction names as [|name names IH]; intros H; [inversion H|].
  cbn [wifi_options]. destruct (decode name) as [ssid|] eqn:E; [|reflexivity].
  rewrite IH; [reflexivity|].
  inversion H as [? ? Hh|? ? Ht]; subst; [congruence|exact Ht].
Qed.


(** X14.  One name among those the scan finds that cannot be decoded makes
    the selection page unavailable: the handler raises [UnicodeError] after
    the scan, writes no response and does not close the connection. *)
Theorem undecodable_name_breaks_form (w w1 : world) (request_line : string)
    (headers : dict) :
  read_head decode w = (Ok (request_line, headers), w1) ->
  startswith request_line "POST /configure" = false ->
  startswith request_line "GET /success" = false ->
  Exists (fun name => decode name = None) (networks w1) ->
  handle_http_connection decode success_page selection_page w
  = (Raise UnicodeError, after w1 0 [EScan]).
Proof.
  intros Hhead Hpost Hget Hbad.
  unfold handle_http_connection, bind at 1. rewrite Hhead.
  cbn [fst snd]. unfold route. rewrite Hpost, Hget.
  unfold bind at 1. unfold _generate_wifi_selection_page.
  unfold bind at 1. unfold emit at 1. unfold bind at 1.
  cbn [after networks]. now rewrite (wifi_options_undecodable _ Hbad).
Qed.



Lemma lower_char_idem (c : ascii) : lower_char (lower_char c) = lower_char c.
Proof.
  destruct c as [b0 b1 b2 b3 b4 b5 b6 b7].
  destruct b0, b1, b2, b3, b4, b5, b6, b7; reflexivity.
Qed.

Lemma lower_idem (s : string) : lower (lower s) = lower s.
Proof.
  induction s as [|c s IH]; [reflexivity|].
  simpl. now rewrite lower_char_idem, IH.
Qed.

Lemma read_headers_keys (fuel : nat) :
  forall hs w hs' w',
    Forall (fun k => lower k = k) (keys hs) -> NoDup (keys hs) ->
    read_headers decode fuel hs w = (Ok hs', w') ->
    Forall (fun k => lower k = k) (keys hs') /\ NoDup (keys hs').
Proof.
  induction fuel as [|fuel IH]; intros hs w hs' w' Hlow Hnd; [discriminate|].
  cbn [read_headers]. unfold bind at 1.
  destruct (readline w) as [[line| |] wa]; try discriminate.
  destruct (bytes_eqb line [x0d; x0a]); [now intros [= <- <-]|].
  destruct line as [|x l]; [discriminate|].
  unfold bind, decoded. destruct (decode (x :: l)) as [text|]; [|discriminate].
  unfold ret. destruct (contains ":" (strip text)).
  - destruct (split1 ": " (strip text)) as [[key value]|]; [|discriminate].
    apply IH.
    + rewrite keys_dict_set. destruct (existsb _ _); [exact Hlow|].
      apply Forall_app. split; [exact Hlow|].
      repeat constructor. apply lower_idem.
    + now apply dict_set_nodup.
  - now apply IH.
Qed.

(** X16.  The header names the handler keeps are lower-case and unique:
    every key of the parsed headers is its own [lower()], and no key comes
    twice (a later line with the same name, in any case, replaces the
    value). *)
Theorem header_names_lowercase (w w1 : world) (request_line : string)
    (headers : dict) :
  read_head decode w = (Ok (request_line, headers), w1) ->
  Forall (fun k => lower k = k) (keys headers) /\ NoDup (keys headers).
Proof.
  unfold read_head. unfold bind at 1.
  destruct (readline w) as [[data| |] wa]; try discriminate.
  unfold bind at 1, decoded. destruct (decode data); [|discriminate].
  unfold ret, bind.
  destruct (read_headers decode _ [] wa) as [[hs| |] wb] eqn:Eh; try discriminate.
  intros [= _ <- _].
  apply (read_headers_keys _ [] _ _ _ (Forall_nil _) (NoDup_nil _) Eh).
Qed.

End HttpMore.

Section HttpMoreRuns.
Import Py Wifi Http View Samples.


Lemma no_crlf_no_answer_witness :
  has_crlf (octets "GET / HTTP/1.1") = false /\
  exists o w',
    handle_http_connection utf8_decode success_text selection_text
      (portal (octets "GET / HTTP/1.1")) = (o, w') /\
    (o = Hang \/ exists e, o = Raise e) /\
    trace w' = trace (portal (octets "GET / HTTP/1.1")).
Proof.
  assert (H : has_crlf (input (portal (octets "GET / HTTP/1.1"))) = false)
    by reflexivity.
  split; [exact H|].
  exact (no_crlf_no_answer utf8_decode success_text selection_text _ H).
Defined.





Lemma undecodable_name_breaks_form_witness :
  handle_http_connection utf8_decode success_text selection_text
    (browse "/" [octets "Home"; [xff; xfe]])
  = (Raise UnicodeError,
     after (set_input [] (browse "/" [octets "Home"; [xff; xfe]])) 0 [EScan]).
Proof.
  apply (undecodable_name_breaks_form utf8_decode success_text selection_text
           _ _ (page_line "/") [("host", "10.0.0.1")]).
  - reflexivity.
  - reflexivity.
  - reflexivity.
  - apply Exists_cons_tl, Exists_cons_hd. reflexivity.
Defined.


Lemma header_names_lowercase_witness :
  read_head utf8_decode
    (portal (post_configure ["Content-Length: 5"; "CONTENT-length: 7"] "abcdefg"))
  = (Ok (request_line, [("content-length", "7")]),
     set_input (octets "abcdefg")
       (portal (post_configure ["Content-Length: 5"; "CONTENT-length: 7"] "abcdefg")))
  /\ Forall (fun k => lower k = k) (keys [("content-length", "7")])
  /\ NoDup (keys [("content-length", "7")]).
Proof.
  assert (H : read_head utf8_decode
                (portal (post_configure ["Content-Length: 5"; "CONTENT-length: 7"]
                           "abcdefg"))
              = (Ok (request_line, [("content-length", "7")]),
                 set_input (octets "abcdefg")
                   (portal (post_configure ["Content-Length: 5"; "CONTENT-length: 7"]
                              "abcdefg")))) by reflexivity.
  split; [exact H|].
  exact (header_names_lowercase utf8_decode _ _ _ _ H).
Defined.

End HttpMoreRuns.

(** ** More on the DNS responder *)

Section DnsMore.
Import Py DNS View.

Variable decode : list byte -> option string.

Lemma slice_middle {A} (pre mid post : list A) :
  firstn (List.length mid) (skipn (List.length pre) (pre ++ mid ++ post)) = mid.
Proof. now rewrite skipn_length_app, firstn_length_app. Qed.

(** X17.  The packet that [response] builds for a parsed query with a
    name and an address [o1.o2.o3.o4] written as a dotted quad is 16 octets
    longer than the datagram; its flags are [81 80], its authority and
    additional counts are zero, and right behind the echoed datagram
    stands the one answer: a pointer to offset 12, type A, class IN, a TTL
    of 60, a data length of 4, then the four octets [o1 o2 o3 o4]. *)
Theorem response_layout (dgram : list byte) (q : query) (o1 o2 o3 o4 : byte) :
  DNSQuery decode dgram = Ok q -> domain q <> EmptyString ->
  exists packet,
    response q (dotted o1 o2 o3 o4) = Ok packet /\
    List.length packet = List.length dgram + 16 /\
    slice 2 4 packet = [x81; x80] /\
    slice 8 12 packet = [x00; x00; x00; x00] /\
    skipn (List.length dgram) packet
    = [xc0; x0c; x00; x01; x00; x01; x00; x00; x00; x3c; x00; x04; o1; o2; o3; o4].
Proof.
  intros Hq Hdom.
  destruct (DNSQuery_domain _ _ _ Hq Hdom) as (b2 & _ & _ & Hlen).
  apply DNSQuery_data in Hq.
  unfold response. rewrite ip_octets_dotted, Hq.
  destruct (String.eqb_spec (domain q) EmptyString) as [E|_]; [contradiction|].
  eexists. split; [reflexivity|].
  destruct dgram as [|d0 [|d1 [|d2 [|d3 [|d4 [|d5 [|d6 [|d7 [|d8 [|d9
    [|d10 [|d11 rest]]]]]]]]]]]]; simpl in Hlen; try lia.
  unfold slice. cbn [skipn firstn Nat.sub List.length app flags].
  split; [|split; [reflexivity|split; [reflexivity|]]].
  - rewrite length_app. simpl. lia.
  - apply skipn_length_app.
Qed.

Lemma nth_error_first_length (pre : list byte) (labels : list (byte * list byte))
    (tail : list byte) :
  nth_error (pre ++ wire_name labels ++ x00 :: tail) (List.length pre)
  = Some (first_length labels).
Proof.
  rewrite nth_error_app2 by lia. rewrite Nat.sub_diag.
  destruct labels as [|[lon l] labels]; reflexivity.
Qed.

Lemma labels_walk (labels : list (byte * list byte)) :
  forall fuel pre tail texts dom,
    List.length labels <= fuel ->
    Forall measured labels ->
    Forall2 (fun l text => decode (snd l) = Some text) labels texts ->
    DNS.labels decode fuel (pre ++ wire_name labels ++ x00 :: tail)
      (List.length pre) (first_length labels) dom
    = Ok (dom +++ dotted_name texts).
Proof.
  induction labels as [|[lon l] labels IH];
    intros fuel pre tail texts dom Hfuel Hm Hd.
  - inversion Hd; subst. destruct fuel; simpl; now rewrite append_nil_r.
  - inversion Hm as [|? ? [Hz Hl] Hm']; subst.
    inversion Hd as [|? text ? texts' Ht Hd']; subst.
    cbn [fst snd] in Hz, Hl, Ht.
    destruct fuel as [|fuel]; [simpl in Hfuel; lia|].
    cbn [DNS.labels first_length].
    destruct (Z.eqb_spec (byte_val lon) 0) as [|_]; [contradiction|].
    assert (Hs : slice (List.length pre + 1)
                   (List.length pre + Z.to_nat (byte_val lon) + 1)
                   (pre ++ wire_name ((lon, l) :: labels) ++ x00 :: tail) = l).
    { unfold slice.
      replace (List.length pre + Z.to_nat (byte_val lon) + 1 - (List.length pre + 1))
        with (List.length l) by lia.
      cbn [wire_name app].
      replace (pre ++ lon :: (l ++ wire_name labels) ++ x00 :: tail)
        with ((pre ++ [lon]) ++ l ++ (wire_name labels ++ x00 :: tail)).
      - replace (List.length pre + 1) with (List.length (pre ++ [lon]))
          by (rewrite length_app; reflexivity).
        apply slice_middle.
      - rewrite <- !app_assoc. reflexivity. }
    rewrite Hs, Ht.
    assert (Hdata : pre ++ wire_name ((lon, l) :: labels) ++ x00 :: tail
                    = (pre ++ lon :: l) ++ wire_name labels ++ x00 :: tail).
    { cbn [wire_name app]. rewrite <- !app_assoc. reflexivity. }
    assert (Hini : List.length pre + (Z.to_nat (byte_val lon) + 1)
                   = List.length (pre ++ lon :: l)).
    { rewrite length_app. simpl. lia. }
    rewrite Hini, Hdata, nth_error_first_length.
    rewrite (IH fuel (pre ++ lon :: l) tail texts' (dom +++ text +++ "."));
      [|simpl in Hfuel; lia|exact Hm'|exact Hd'].
    cbn [dotted_name]. now rewrite !append_assoc.
Qed.

Lemma wire_name_length (labels : list (byte * list byte)) :
  List.length labels <= List.length (wire_name labels).
Proof.
  induction labels as [|[lon l] labels IH]; simpl; [lia|].
  rewrite length_app. lia.
Qed.

(** X18.  A standard query is parsed to its dotted name: for every header
    of 12 octets with opcode 0, every sequence of labels, each behind a
    length octet that is not 0 and counts it, and whatever follows the
    closing 0, the parsed domain is the decoded labels, each followed by a
    dot. *)
Theorem query_name_parsed (header : list byte) (b2 : byte)
    (labels : list (byte * list byte)) (texts : list string) (tail : list byte) :
  List.length header = 12 ->
  nth_error header 2 = Some b2 -> tipo_of b2 = 0%Z ->
  Forall measured labels ->
  Forall2 (fun l text => decode (snd l) = Some text) labels texts ->
  DNSQuery decode (header ++ wire_name labels ++ x00 :: tail)
  = Ok {| data := header ++ wire_name labels ++ x00 :: tail;
          domain := dotted_name texts |}.
Proof.
  intros Hlen Hb2 Hop Hm Hd. unfold DNSQuery.
  rewrite nth_error_app1 by (rewrite Hlen; lia). rewrite Hb2, Hop.
  cbn [Z.eqb].
  pose proof (nth_error_first_length header labels tail) as Hn.
  rewrite Hlen in Hn. rewrite Hn.
  pose proof (labels_walk labels
                (List.length (header ++ wire_name labels ++ x00 :: tail))
                header tail texts EmptyString) as Hw.
  rewrite Hlen in Hw. rewrite Hw; [reflexivity| |exact Hm|exact Hd].
  rewrite !length_app. pose proof (wire_name_length labels). lia.
Qed.

(** X19.  A standard query for the root name (a 0 at offset 12, no label)
    is not answered: its parsed domain is empty, [response] raises, and
    the server turn ends in its [except] branch. *)
Theorem root_query_unanswered (dgram : list byte) (b2 lon : byte)
    (addr : address) :
  nth_error dgram 2 = Some b2 -> tipo_of b2 = 0%Z ->
  nth_error dgram 12 = Some lon -> byte_val lon = 0%Z ->
  DNSQuery decode dgram = Ok {| data := dgram; domain := EmptyString |} /\
  run_dns_server decode [Datagram dgram addr] = [Caught NameError].
Proof.
  intros Hb2 Hop Hlon Hz.
  assert (Hq : DNSQuery decode dgram = Ok {| data := dgram; domain := EmptyString |}).
  { unfold DNSQuery. rewrite Hb2, Hop, Hlon. cbn [Z.eqb].
    destruct (List.length dgram); simpl; now rewrite Hz. }
  split; [exact Hq|].
  unfold run_dns_server. cbn [flat_map serve]. rewrite Hq.
  destruct dgram; [discriminate|]. reflexivity.
Qed.

(** X20.  A datagram of at most 12 octets, a header with no question, is
    never answered: parsing it raises [IndexError], or leaves the domain
    empty so that [response] raises, and the turn sends nothing. *)
Theorem short_datagram_unanswered (dgram : list byte) (addr : address) :
  dgram <> [] -> List.length dgram <= 12 ->
  run_dns_server decode [Datagram dgram addr] = [Caught IndexError] \/
  run_dns_server decode [Datagram dgram addr] = [Caught NameError].
Proof.
  intros Hne Hlen. unfold run_dns_server. cbn [flat_map].
  rewrite app_nil_r.
  assert (E : serve decode (Datagram dgram addr)
              = match DNSQuery decode dgram with
                | Ok dns_query =>
                    match response dns_query SERVER_IP with
                    | Ok packet => [SendTo packet addr]
                    | Raise e => [Caught e]
                    | Hang => []
                    end
                | Raise e => [Caught e]
                | Hang => []
                end).
  { destruct dgram; [contradiction|reflexivity]. }
  rewrite E. unfold DNSQuery.
  destruct (nth_error dgram 2) as [b2|]; [|now left].
  destruct (tipo_of b2 =? 0)%Z.
  - destruct (nth_error dgram 12) as [lon|] eqn:E12; [|now left].
    apply nth_error_lt in E12. lia.
  - now right.
Qed.

(** X21.  Every datagram that is parsed to a query with a name is
    answered: in any run the server sends, to the sender of that datagram,
    the packet that [response] builds for [SERVER_IP]. *)
Theorem named_query_answered (rs : list received) (dgram : list byte)
    (addr : address) (q : query) :
  In (Datagram dgram addr) rs ->
  DNSQuery decode dgram = Ok q -> domain q <> EmptyString ->
  exists packet,
    response q SERVER_IP = Ok packet /\
    In (SendTo packet addr) (run_dns_server decode rs).
Proof.
  intros Hin Hq Hdom.
  assert (Hr : exists packet, response q SERVER_IP = Ok packet).
  { unfold response.
    destruct (String.eqb_spec (domain q) EmptyString); [contradiction|].
    rewrite server_ip_dotted, ip_octets_dotted. eexists. reflexivity. }
  destruct Hr as (packet & Hr). exists packet. split; [exact Hr|].
  unfold run_dns_server. apply in_flat_map.
  exists (Datagram dgram addr). split; [exact Hin|].
  cbn [serve]. destruct dgram as [|x d].
  - unfold DNSQuery in Hq. discriminate.
  - rewrite Hq, Hr. now left.
Qed.

Lemma labels_run_off (labels : list (byte * list byte)) :
  forall fuel pre lon l texts dom,
    List.length labels < fuel ->
    Forall measured ((lon, l) :: labels) ->
    Forall2 (fun l text => decode (snd l) = Some text) ((lon, l) :: labels) texts ->
    DNS.labels decode fuel (pre ++ wire_name ((lon, l) :: labels))
      (List.length pre) lon dom
    = Raise IndexError.
Proof.
  induction labels as [|[lon' l'] labels IH];
    intros fuel pre lon l texts dom Hfuel Hm Hd;
    inversion Hm as [|? ? [Hz Hl] Hm']; subst;
    inversion Hd as [|? text ? texts' Ht Hd']; subst;
    cbn [fst snd] in Hz, Hl, Ht;
    (destruct fuel as [|fuel]; [simpl in Hfuel; lia|]);
    cbn [DNS.labels];
    (destruct (Z.eqb_spec (byte_val lon) 0) as [|_]; [contradiction|]).
  - assert (Hs : slice (List.length pre + 1)
                   (List.length pre + Z.to_nat (byte_val lon) + 1)
                   (pre ++ wire_name [(lon, l)]) = l).
    { unfold slice.
      replace (List.length pre + Z.to_nat (byte_val lon) + 1 - (List.length pre + 1))
        with (List.length l) by lia.
      cbn [wire_name app]. rewrite app_nil_r.
      replace (pre ++ lon :: l) with ((pre ++ [lon]) ++ l ++ [])
        by (rewrite app_nil_r, <- app_assoc; reflexivity).
      replace (List.length pre + 1) with (List.length (pre ++ [lon]))
        by (rewrite length_app; reflexivity).
      apply slice_middle. }
    rewrite Hs, Ht.
    assert (Hnone : nth_error (pre ++ wire_name [(lon, l)])
                      (List.length pre + (Z.to_nat (byte_val lon) + 1)) = None).
    { apply nth_error_None. cbn [wire_name]. rewrite !length_app. simpl.
      rewrite length_app. simpl. lia. }
    now rewrite Hnone.
  - assert (Hs : slice (List.length pre + 1)
                   (List.length pre + Z.to_nat (byte_val lon) + 1)
                   (pre ++ wire_name ((lon, l) :: (lon', l') :: labels)) = l).
    { unfold slice.
      replace (List.length pre + Z.to_nat (byte_val lon) + 1 - (List.length pre + 1))
        with (List.length l) by lia.
      change (wire_name ((lon, l) :: (lon', l') :: labels))
        with (lon :: l ++ wire_name ((lon', l') :: labels)).
      replace (pre ++ lon :: l ++ wire_name ((lon', l') :: labels))
        with ((pre ++ [lon]) ++ l ++ wire_name ((lon', l') :: labels))
        by (rewrite <- app_assoc; reflexivity).
      replace (List.length pre + 1) with (List.length (pre ++ [lon]))
        by (rewrite length_app; reflexivity).
      apply slice_middle. }
    rewrite Hs, Ht.
    assert (Hdata : pre ++ wire_name ((lon, l) :: (lon', l') :: labels)
                    = (pre ++ lon :: l) ++ wire_name ((lon', l') :: labels)).
    { change (wire_name ((lon, l) :: (lon', l') :: labels))
        with (lon :: l ++ wire_name ((lon', l') :: labels)).
      rewrite <- app_assoc. reflexivity. }
    assert (Hini : List.length pre + (Z.to_nat (byte_val lon) + 1)
                   = List.length (pre ++ lon :: l)).
    { rewrite length_app. simpl. lia. }
    rewrite Hini, Hdata.
    assert (Hn : nth_error ((pre ++ lon :: l) ++ wire_name ((lon', l') :: labels))
                   (List.length (pre ++ lon :: l)) = Some lon').
    { rewrite nth_error_app2 by lia. now rewrite Nat.sub_diag. }
    rewrite Hn.
    apply (IH fuel (pre ++ lon :: l) lon' l' texts');
      [simpl in Hfuel; lia|exact Hm'|exact Hd'].
Qed.

(** X24.  A standard query whose name is not closed: when the datagram
    ends with its last label, reading the next length octet raises
    [IndexError], and the server turn sends nothing. *)
Theorem open_name_unanswered (header : list byte) (b2 : byte)
    (lon : byte) (l : list byte) (labels : list (byte * list byte))
    (texts : list string) (addr : address) :
  List.length header = 12 ->
  nth_error header 2 = Some b2 -> tipo_of b2 = 0%Z ->
  Forall measured ((lon, l) :: labels) ->
  Forall2 (fun l text => decode (snd l) = Some text) ((lon, l) :: labels) texts ->
  DNSQuery decode (header ++ wire_name ((lon, l) :: labels)) = Raise IndexError /\
  run_dns_server decode [Datagram (header ++ wire_name ((lon, l) :: labels)) addr]
  = [Caught IndexError].
Proof.
  intros Hlen Hb2 Hop Hm Hd.
  assert (Hq : DNSQuery decode (header ++ wire_name ((lon, l) :: labels))
               = Raise IndexError).
  { unfold DNSQuery.
    rewrite nth_error_app1 by (rewrite Hlen; lia). rewrite Hb2, Hop.
    cbn [Z.eqb].
    assert (Hn : nth_error (header ++ wire_name ((lon, l) :: labels)) 12 = Some lon).
    { rewrite nth_error_app2 by lia. now rewrite Hlen. }
    rewrite Hn.
    pose proof (labels_run_off labels
                  (List.length (header ++ wire_name ((lon, l) :: labels)))
                  header lon l texts EmptyString) as Hw.
    rewrite Hlen in Hw. rewrite Hw; [reflexivity| |exact Hm|exact Hd].
    rewrite length_app. cbn [wire_name List.length]. rewrite length_app.
    pose proof (wire_name_length labels). lia. }
  split; [exact Hq|].
  unfold run_dns_server. cbn [flat_map serve]. rewrite Hq.
  destruct header; [discriminate|]. reflexivity.
Qed.

End DnsMore.

Section DnsMoreRuns.
Import Py DNS View Samples.

Lemma response_layout_witness :
  DNSQuery utf8_decode captive_example = Ok captive_query /\
  domain captive_query <> EmptyString /\
  SERVER_IP = dotted x0a x00 x00 x01 /\
  exists packet,
    response captive_query SERVER_IP = Ok packet /\
    List.length packet = List.length captive_example + 16 /\
    slice 2 4 packet = [x81; x80] /\
    slice 8 12 packet = [x00; x00; x00; x00] /\
    skipn (List.length captive_example) packet
    = [xc0; x0c; x00; x01; x00; x01; x00; x00; x00; x3c; x00; x04;
       x0a; x00; x00; x01].
Proof.
  assert (Hq : DNSQuery utf8_decode captive_example = Ok captive_query)
    by reflexivity.
  assert (Hdom : domain captive_query <> EmptyString) by discriminate.
  split; [exact Hq|]. split; [exact Hdom|]. split; [reflexivity|].
  exact (response_layout utf8_decode captive_example captive_query
           x0a x00 x00 x01 Hq Hdom).
Defined.

Lemma query_name_parsed_witness :
  List.length query_header = 12 /\
  nth_error query_header 2 = Some x01 /\ tipo_of x01 = 0%Z /\
  Forall measured captive_labels /\
  Forall2 (fun l text => utf8_decode (snd l) = Some text) captive_labels
    ["captive"; "example"] /\
  DNSQuery utf8_decode
    (query_header ++ wire_name captive_labels ++ x00 :: [x00; x01; x00; x01])
  = Ok {| data := query_header ++ wire_name captive_labels
                  ++ x00 :: [x00; x01; x00; x01];
          domain := dotted_name ["captive"; "example"] |}.
Proof.
  assert (H1 : List.length query_header = 12) by reflexivity.
  assert (H2 : nth_error query_header 2 = Some x01) by reflexivity.
  assert (H3 : tipo_of x01 = 0%Z) by reflexivity.
  assert (H4 : Forall measured captive_labels).
  { repeat constructor; discriminate. }
  assert (H5 : Forall2 (fun l text => utf8_decode (snd l) = Some text)
                 captive_labels ["captive"; "example"])
    by (repeat constructor).
  split; [exact H1|]. split; [exact H2|]. split; [exact H3|].
  split; [exact H4|]. split; [exact H5|].
  exact (query_name_parsed utf8_decode _ _ _ _ _ H1 H2 H3 H4 H5).
Defined.

Lemma root_query_unanswered_witness :
  nth_error root_query 2 = Some x01 /\ tipo_of x01 = 0%Z /\
  nth_error root_query 12 = Some x00 /\ byte_val x00 = 0%Z /\
  run_dns_server utf8_decode [Datagram root_query client] = [Caught NameError].
Proof.
  assert (H1 : nth_error root_query 2 = Some x01) by reflexivity.
  assert (H2 : tipo_of x01 = 0%Z) by reflexivity.
  assert (H3 : nth_error root_query 12 = Some x00) by reflexivity.
  assert (H4 : byte_val x00 = 0%Z) by reflexivity.
  split; [exact H1|]. split; [exact H2|]. split; [exact H3|]. split; [exact H4|].
  exact (proj2 (root_query_unanswered utf8_decode _ _ _ client H1 H2 H3 H4)).
Defined.

Lemma short_datagram_unanswered_witness :
  query_header <> [] /\ List.length query_header <= 12 /\
  (run_dns_server utf8_decode [Datagram query_header client] = [Caught IndexError] \/
   run_dns_server utf8_decode [Datagram query_header client] = [Caught NameError]).
Proof.
  assert (H1 : query_header <> []) by discriminate.
  assert (H2 : List.length query_header <= 12) by (simpl; lia).
  split; [exact H1|]. split; [exact H2|].
  exact (short_datagram_unanswered utf8_decode _ client H1 H2).
Defined.

Lemma named_query_answered_witness :
  In (Datagram captive_example client)
     [Failed 11; Datagram captive_example client] /\
  DNSQuery utf8_decode captive_example = Ok captive_query /\
  domain captive_query <> EmptyString /\
  exists packet,
    response captive_query SERVER_IP = Ok packet /\
    In (SendTo packet client)
       (run_dns_server utf8_decode [Failed 11; Datagram captive_example client]).
Proof.
  assert (H1 : In (Datagram captive_example client)
                 [Failed 11; Datagram captive_example client])
    by (right; left; reflexivity).
  assert (Hq : DNSQuery utf8_decode captive_example = Ok captive_query)
    by reflexivity.
  assert (Hdom : domain captive_query <> EmptyString) by discriminate.
  split; [exact H1|]. split; [exact Hq|]. split; [exact Hdom|].
  exact (named_query_answered utf8_decode _ _ _ _ H1 Hq Hdom).
Defined.

Lemma open_name_unanswered_witness :
  List.length query_header = 12 /\
  nth_error query_header 2 = Some x01 /\ tipo_of x01 = 0%Z /\
  Forall measured captive_labels /\
  Forall2 (fun l text => utf8_decode (snd l) = Some text) captive_labels
    ["captive"; "example"] /\
  run_dns_server utf8_decode [Datagram (query_header ++ wire_name captive_labels) client]
  = [Caught IndexError].
Proof.
  assert (H1 : List.length query_header = 12) by reflexivity.
  assert (H2 : nth_error query_header 2 = Some x01) by reflexivity.
  assert (H3 : tipo_of x01 = 0%Z) by reflexivity.
  assert (H4 : Forall measured captive_labels).
  { repeat constructor; discriminate. }
  assert (H5 : Forall2 (fun l text => utf8_decode (snd l) = Some text)
                 captive_labels ["captive"; "example"])
    by (repeat constructor).
  split; [exact H1|]. split; [exact H2|]. split; [exact H3|].
  split; [exact H4|]. split; [exact H5|].
  exact (proj2 (open_name_unanswered utf8_decode query_header x01
                  x07 (list_byte_of_string "captive")
                  [(x07, list_byte_of_string "example")] _ client
                  H1 H2 H3 H4 H5)).
Defined.

End DnsMoreRuns.

(** ** More on the connection state machine *)

Section WifiMore.
Import Py Wifi View.

Lemma slept_app (a b : list event) : slept (a ++ b) = slept a + slept b.
Proof.
  induction a as [|e a IH]; [reflexivity|].
  destruct e; simpl; rewrite ?IH; lia.
Qed.

Lemma waits_slept (k : nat) : slept (waits k) = 100 * k.
Proof. induction k as [|k IH]; [reflexivity|]. cbn [waits slept]. lia. Qed.

(** One attempt: at most 100 polls and at most 100 sleeps of 100 ms. *)
Lemma wifi_connect_cost (s p : string) (w : world) :
  exists r n evs,
    _wifi_connect s p w = (Ok r, after w n evs) /\
    n <= 100 /\ slept evs <= 100 * 100.
Proof.
  destruct (wifi_connect_cases s p w) as [(k & Hk & E)|E]; rewrite E.
  - eexists; eexists; eexists. split; [reflexivity|]. split; [lia|].
    cbn [slept]. rewrite slept_app, waits_slept. simpl. lia.
  - eexists; eexists; eexists. split; [reflexivity|]. split; [lia|].
    cbn [slept]. rewrite slept_app, waits_slept. simpl. lia.
Qed.

Lemma try_profiles_cost (items : list (string * string)) :
  forall w, exists r n evs,
    try_profiles items w = (Ok r, after w n evs) /\
    n <= 100 * List.length items /\ slept evs <= 100 * 100 * List.length items.
Proof.
  induction items as [|[s p] rest IH]; intros w.
  - exists false, 0, []. rewrite after_nothing. repeat split; simpl; lia.
  - destruct (wifi_connect_cost s p w) as (r & n & evs & E & Hn & Hs).
    cbn [try_profiles]. unfold bind. rewrite E. destruct r.
    + exists true, n, evs. split; [reflexivity|]. cbn [List.length]. lia.
    + destruct (IH (after w n evs)) as (r & n' & evs' & E' & Hn' & Hs').
      rewrite E', after_after. exists r, (n + n'), (evs ++ evs').
      split; [reflexivity|]. rewrite slept_app. cbn [List.length]. lia.
Qed.

(** X22.  [connect] returns within a budget that the store fixes: when the
    store reads as [n] profiles it returns a boolean after at most 100
    polls and 100 sleeps of 100 ms for each of them (for the one default
    profile when [n] is 0), and it leaves the store and the input as they
    were. *)
Theorem connect_budget (self : WifiManager) (w : world) (profiles : dict) :
  Store._read_profiles (file w) = Ok profiles ->
  exists r n evs,
    connect self w = (Ok r, after w n evs) /\
    n <= 100 * Nat.max 1 (List.length profiles) /\
    slept evs <= 100 * 100 * Nat.max 1 (List.length profiles).
Proof.
  intros Hread. unfold connect, bind at 1, Wifi._read_profiles. rewrite Hread.
  destruct profiles as [|item rest].
  - destruct (wifi_connect_cost (ssid self) (password self) w)
      as (r & n & evs & E & Hn & Hs).
    unfold bind. rewrite E. exists r, n, evs.
    split; [now destruct r|]. simpl. lia.
  - destruct (try_profiles_cost (item :: rest) w) as (r & n & evs & E & Hn & Hs).
    exists r, n, evs. split; [exact E|].
    replace (Nat.max 1 (List.length (item :: rest)))
      with (List.length (item :: rest)) by (simpl; lia).
    lia.
Qed.

(** X23.  A store with a malformed line makes [connect] raise
    [ValueError] before anything is attempted: it does not fall back to
    the default profile, and the station is not touched. *)
Theorem connect_spoiled_store (self : WifiManager) (w : world)
    (text line : string) :
  file w = Some text ->
  In line (readlines text) -> count Store.SEP line <> 1 ->
  connect self w = (Raise ValueError, w).
Proof.
  intros Hf Hin Hbad. unfold connect, bind, Wifi._read_profiles.
  rewrite Hf. unfold Store._read_profiles.
  now rewrite (read_lines_bad _ _ [] Hin Hbad).
Qed.

End WifiMore.

Section WifiMoreRuns.
Import Py Wifi View Samples.

Lemma connect_budget_witness :
  Store._read_profiles (file home_world) = Ok [("Home", "pw1")] /\
  exists r n evs,
    connect default_manager home_world = (Ok r, after home_world n evs) /\
    n <= 100 * Nat.max 1 1 /\ slept evs <= 100 * 100 * Nat.max 1 1.
Proof.
  assert (H : Store._read_profiles (file home_world) = Ok [("Home", "pw1")])
    by reflexivity.
  split; [exact H|].
  exact (connect_budget default_manager home_world _ H).
Defined.

Lemma connect_spoiled_store_witness :
  file (visit (Some broken_text) (fun _ => true)) = Some broken_text /\
  In "c;d;e" (readlines broken_text) /\ count Store.SEP "c;d;e" <> 1 /\
  connect default_manager (visit (Some broken_text) (fun _ => true))
  = (Raise ValueError, visit (Some broken_text) (fun _ => true)).
Proof.
  assert (H1 : file (visit (Some broken_text) (fun _ => true)) = Some broken_text)
    by reflexivity.
  assert (H2 : In "c;d;e" (readlines broken_text)) by (simpl; tauto).
  assert (H3 : count Store.SEP "c;d;e" <> 1) by (simpl; lia).
  split; [exact H1|]. split; [exact H2|]. split; [exact H3|].
  exact (connect_spoiled_store default_manager _ _ _ H1 H2 H3).
Defined.

End WifiMoreRuns.
